(** * Session handshake of the React Router front end over a Payload backend

    A shallow embedding of [app/utils/payload-helper.ts] and of the three
    route modules ([routes/home.tsx], [routes/login.tsx],
    [routes/register.tsx]): their loaders and actions, the zod schemas that
    validate the submitted forms, and the [Set-Cookie] directive they emit.

    Strings are sequences of code units; [String.length] plays the role of
    JavaScript's [.length].  Rocq's [string] offers 8-bit units, so the
    development speaks about strings whose code units are below 256. *)

From Stdlib Require Import ZArith List String Ascii Bool Lia DecimalString.
Import ListNotations.
Open Scope string_scope.

(** ** Strings *)

Module Str.

Fixpoint rev (s : string) : string :=
  match s with
  | EmptyString => EmptyString
  | String c r => rev r ++ String c EmptyString
  end.

Fixpoint forallb (p : ascii -> bool) (s : string) : bool :=
  match s with
  | EmptyString => true
  | String c r => p c && forallb p r
  end.

Fixpoint drop_while (p : ascii -> bool) (s : string) : string :=
  match s with
  | EmptyString => EmptyString
  | String c r => if p c then drop_while p r else s
  end.

(** Code units that [String.prototype.trim] strips: TAB, LF, VT, FF, CR,
    SPACE and NO-BREAK SPACE (the white space and line terminators below
    256). *)
Definition is_space (c : ascii) : bool :=
  let n := nat_of_ascii c in
  ((9 <=? n) && (n <=? 13) || (n =? 32) || (n =? 160))%nat.

(** [s.trim()]. *)
Definition trim (s : string) : string :=
  rev (drop_while is_space (rev (drop_while is_space s))).

(** Decimal digits of a non-negative number, at least [width] of them. *)
Fixpoint pad_left (width : nat) (s : string) : string :=
  if (width <=? String.length s)%nat then s
  else match width with
       | O => s
       | S w => "0" ++ pad_left w s
       end.

Definition of_Z (z : Z) : string := NilZero.string_of_int (Z.to_int z).

Definition padded (width : nat) (z : Z) : string := pad_left width (of_Z z).

End Str.

(** ** Numbers

    How JavaScript prints a number with an integer value, as a template
    literal and [Error(...)] do.  [JSON.parse] reads an integer as the nearest
    Number; a Number prints with the fewest digits that read back as the same
    Number, in plain decimal below 10^21 and with an exponent from there
    on. *)

Module JSNumber.

Open Scope Z_scope.

(** The Number nearest to the integer [a], [0 <= a], ties to even; [None] is
    Infinity. *)
Definition nearest (a : Z) : option Z :=
  if a <? 2 ^ 53 then Some a
  else
    let e := Z.log2 a - 52 in
    let q := a / 2 ^ e in
    let r := a mod 2 ^ e in
    let half := 2 ^ (e - 1) in
    let m := if (half <? r) || ((r =? half) && Z.odd q) then q + 1 else q in
    let v := m * 2 ^ e in
    if v <? 2 ^ 1024 then Some v else None.

Definition reads_as (v c : Z) : bool :=
  match nearest c with
  | Some w => w =? v
  | None => false
  end.

(** The integer with the fewest significant digits that reads as [v]: with
    one digit, then two, and so on; of two with as many digits the one nearer
    to [v], and of two equally near the one whose last digit is even. *)
Fixpoint shortest_from (fuel : nat) (j : Z) (v : Z) : Z :=
  match fuel with
  | O => v
  | S fuel' =>
      let p := 10 ^ j in
      let lo := (v / p) * p in
      let hi := lo + p in
      let ok_lo := reads_as v lo in
      let ok_hi := reads_as v hi in
      if ok_lo && ok_hi then
        if (v - lo <? hi - v) || ((v - lo =? hi - v) && Z.even (v / p)) then lo else hi
      else if ok_lo then lo
      else if ok_hi then hi
      else shortest_from fuel' (j - 1) v
  end.

Definition shortest (v : Z) : Z :=
  let digits := String.length (Str.of_Z v) in
  shortest_from digits (Z.of_nat digits - 1) v.

Fixpoint strip_zeros (digits : string) : string :=
  match digits with
  | EmptyString => EmptyString
  | String c rest =>
      match strip_zeros rest with
      | EmptyString => if Ascii.eqb c "0" then EmptyString else String c EmptyString
      | kept => String c kept
      end
  end.

(** Number::toString on a Number [v] with an integer value, [0 <= v]. *)
Definition print (v : Z) : string :=
  let c := shortest v in
  if c <? 10 ^ 21 then Str.of_Z c
  else
    let digits := Str.of_Z c in
    let exponent := Str.of_Z (Z.of_nat (String.length digits) - 1) in
    match strip_zeros digits with
    | String d EmptyString => (String d "e+" ++ exponent)%string
    | String d more => (String d "." ++ more ++ "e+" ++ exponent)%string
    | EmptyString => "0"%string
    end.

(** The text of the number that [JSON.parse] reads from the integer [n]. *)
Definition toString (n : Z) : string :=
  match nearest (Z.abs n) with
  | Some v => if n <? 0 then ("-" ++ print v)%string else print v
  | None => if n <? 0 then "-Infinity"%string else "Infinity"%string
  end.

End JSNumber.

(** ** JavaScript values

    What [resp.json()] yields, extended with [undefined], the result of
    reading a missing property.  Numbers are those written as integers:
    [JNum n] is the number that [JSON.parse] reads from the integer [n].  An
    object is the list of its own properties. *)

#[local] Set Warnings "-register-all".

Inductive JSValue : Type :=
| JUndefined
| JNull
| JBool (b : bool)
| JNum (n : Z)
| JStr (s : string)
| JArr (items : list JSValue)
| JObj (props : list (string * JSValue)).

Fixpoint assoc {A : Type} (k : string) (l : list (string * A)) : option A :=
  match l with
  | [] => None
  | (k', v) :: r => if String.eqb k k' then Some v else assoc k r
  end.

(** ToBoolean, as taken by [if (...)], [!] and [||]. *)
Definition truthy (v : JSValue) : bool :=
  match v with
  | JUndefined | JNull => false
  | JBool b => b
  | JNum n => negb (n =? 0)%Z
  | JStr s => negb (s =? "")
  | JArr _ | JObj _ => true
  end.

(** [v?.k] for a property name [k] that no prototype defines
    ([errors], [user], [token], [expires], [message]). *)
Definition prop (v : JSValue) (k : string) : JSValue :=
  match v with
  | JObj ps => match assoc k ps with Some x => x | None => JUndefined end
  | _ => JUndefined
  end.

(** [v[0]] for a [v] that is neither [null] nor [undefined]. *)
Definition index0 (v : JSValue) : JSValue :=
  match v with
  | JArr (x :: _) => x
  | JStr (String c _) => JStr (String c EmptyString)
  | JObj ps => match assoc "0" ps with Some x => x | None => JUndefined end
  | _ => JUndefined
  end.

(** ToString, as applied by a template literal and by [Error(...)].  [None]
    is the [TypeError] of an object that cannot be converted: a parsed object
    with an own [toString] property hides the inherited method behind a value
    that cannot be called, and the inherited [valueOf] returns the object
    itself.  An array converts by joining the texts of its items. *)
Fixpoint ToString (v : JSValue) : option string :=
  match v with
  | JUndefined => Some "undefined"
  | JNull => Some "null"
  | JBool true => Some "true"
  | JBool false => Some "false"
  | JNum n => Some (JSNumber.toString n)
  | JStr s => Some s
  | JArr items =>
      (fix join (l : list JSValue) : option string :=
         match l with
         | [] => Some ""
         | x :: r =>
             let here := match x with
                         | JUndefined | JNull => Some ""
                         | _ => ToString x
                         end in
             match here, join r with
             | Some h, Some rest =>
                 Some (match r with
                       | [] => h
                       | _ :: _ => h ++ "," ++ rest
                       end)
             | _, _ => None
             end
         end) items
  | JObj props =>
      match assoc "toString" props with
      | Some _ => None
      | None => Some "[object Object]"
      end
  end.

(** The message of the [TypeError] of a failed conversion, as Node words
    it. *)
Definition cannot_convert : string := "Cannot convert object to primitive value".

(** ** Dates

    [new Date(v).toUTCString()], which renders the [expires] attribute of the
    session cookie.  A time value is a number of milliseconds since the
    epoch; [None] is the invalid date.  The functions are those of the
    language definition, under their names there. *)

Module JSDate.

Open Scope Z_scope.

Definition msPerDay : Z := 86400000.

Definition TimeClip (t : Z) : option Z :=
  if Z.abs t <=? 8640000000000000 then Some t else None.

Definition Day (t : Z) : Z := t / msPerDay.
Definition TimeWithinDay (t : Z) : Z := t mod msPerDay.
Definition WeekDay (t : Z) : Z := (Day t + 4) mod 7.
Definition HourFromTime (t : Z) : Z := (TimeWithinDay t / 3600000) mod 24.
Definition MinFromTime (t : Z) : Z := (TimeWithinDay t / 60000) mod 60.
Definition SecFromTime (t : Z) : Z := (TimeWithinDay t / 1000) mod 60.

Definition DaysInYear (y : Z) : Z :=
  if negb (y mod 4 =? 0) then 365
  else if negb (y mod 100 =? 0) then 366
  else if negb (y mod 400 =? 0) then 365
  else 366.

Definition DayFromYear (y : Z) : Z :=
  365 * (y - 1970) + (y - 1969) / 4 - (y - 1901) / 100 + (y - 1601) / 400.

(** The largest year that starts on or before the day [d]: a guess from the
    mean length of a year, corrected by one either way. *)
Definition year_of_day (d : Z) : Z :=
  let guess := 1970 + (d * 400) / 146097 in
  if d <? DayFromYear guess then guess - 1
  else if DayFromYear (guess + 1) <=? d then guess + 1
  else guess.

Definition YearFromTime (t : Z) : Z := year_of_day (Day t).
Definition InLeapYear (t : Z) : Z := if DaysInYear (YearFromTime t) =? 366 then 1 else 0.
Definition DayWithinYear (t : Z) : Z := Day t - DayFromYear (YearFromTime t).

(** Months count from 0. *)
Definition MonthFromTime (t : Z) : Z :=
  let d := DayWithinYear t in
  let leap := InLeapYear t in
  if d <? 31 then 0
  else if d <? 59 + leap then 1
  else if d <? 90 + leap then 2
  else if d <? 120 + leap then 3
  else if d <? 151 + leap then 4
  else if d <? 181 + leap then 5
  else if d <? 212 + leap then 6
  else if d <? 243 + leap then 7
  else if d <? 273 + leap then 8
  else if d <? 304 + leap then 9
  else if d <? 334 + leap then 10
  else 11.

Definition DateFromTime (t : Z) : Z :=
  let d := DayWithinYear t in
  let leap := InLeapYear t in
  match MonthFromTime t with
  | 0 => d + 1
  | 1 => d - 30
  | 2 => d - 58 - leap
  | 3 => d - 89 - leap
  | 4 => d - 119 - leap
  | 5 => d - 150 - leap
  | 6 => d - 180 - leap
  | 7 => d - 211 - leap
  | 8 => d - 242 - leap
  | 9 => d - 272 - leap
  | 10 => d - 303 - leap
  | _ => d - 333 - leap
  end.

Definition day_name (w : Z) : string :=
  nth (Z.to_nat w) ["Sun"; "Mon"; "Tue"; "Wed"; "Thu"; "Fri"; "Sat"]%string ""%string.

Definition month_name (m : Z) : string :=
  nth (Z.to_nat m)
      ["Jan"; "Feb"; "Mar"; "Apr"; "May"; "Jun";
       "Jul"; "Aug"; "Sep"; "Oct"; "Nov"; "Dec"]%string ""%string.

Definition year_text (y : Z) : string :=
  let sign := if y <? 0 then "-"%string else ""%string in
  (sign ++ Str.padded 4 (Z.abs y))%string.

(** [Date.prototype.toUTCString]. *)
Definition toUTCString (tv : option Z) : string :=
  match tv with
  | None => "Invalid Date"%string
  | Some t =>
      (day_name (WeekDay t) ++ ", " ++ Str.padded 2 (DateFromTime t) ++ " "
       ++ month_name (MonthFromTime t) ++ " " ++ year_text (YearFromTime t) ++ " "
       ++ Str.padded 2 (HourFromTime t) ++ ":" ++ Str.padded 2 (MinFromTime t) ++ ":"
       ++ Str.padded 2 (SecFromTime t) ++ " GMT")%string
  end.

(** [new Date(v)] for one argument.  [parse] is the engine's [Date.parse],
    whose accepted formats are left to the implementation.  An array or an
    object is first converted to text; where that conversion throws, so does
    [new Date(v)], and the one who evaluates it tests [ToString v] first.  A
    number beyond the safe integers is beyond the range of dates as well, so
    reading it as the nearest Number changes nothing here. *)
Definition construct (parse : string -> option Z) (v : JSValue) : option Z :=
  let clip o := match o with Some t => TimeClip t | None => None end in
  match v with
  | JUndefined => None
  | JNull => Some 0
  | JBool b => Some (if b then 1 else 0)
  | JNum n => TimeClip n
  | JStr s => clip (parse s)
  | JArr _ | JObj _ =>
      match ToString v with
      | Some s => clip (parse s)
      | None => None
      end
  end.

End JSDate.

(** ** Regular expressions

    Enough of a matcher to run the pattern behind zod's [.email()] check:
    character classes, sequence, alternative and iteration, matched by
    derivatives. *)

Module Regex.

Inductive re : Type :=
| Void
| Eps
| Class (p : ascii -> bool)
| Seq (a b : re)
| Alt (a b : re)
| Star (a : re).

Definition Plus (a : re) : re := Seq a (Star a).

Fixpoint nullable (r : re) : bool :=
  match r with
  | Void | Class _ => false
  | Eps | Star _ => true
  | Seq a b => nullable a && nullable b
  | Alt a b => nullable a || nullable b
  end.

Fixpoint deriv (c : ascii) (r : re) : re :=
  match r with
  | Void | Eps => Void
  | Class p => if p c then Eps else Void
  | Seq a b =>
      if nullable a then Alt (Seq (deriv c a) b) (deriv c b)
      else Seq (deriv c a) b
  | Alt a b => Alt (deriv c a) (deriv c b)
  | Star a => Seq (deriv c a) (Star a)
  end.

(** [^r$] tested against the whole of [s]. *)
Fixpoint matches (r : re) (s : string) : bool :=
  match s with
  | EmptyString => nullable r
  | String c s' => matches (deriv c r) s'
  end.

End Regex.

(** ** zod

    The part of zod 3 that the two schemas use.  [z.string()] followed by
    chained checks keeps the checks in a list, and [ZodString._parse] runs
    them over the input in the order in which they were chained: [email]
    and [min] test the data as it is at that point and record an issue when
    it fails, [trim] replaces the data by its trimmed form.  [safeParse]
    succeeds when no issue was recorded. *)

Module Zod.

Definition between (lo hi : nat) (c : ascii) : bool :=
  let n := nat_of_ascii c in ((lo <=? n) && (n <=? hi))%nat.

Definition letter (c : ascii) : bool := between 65 90 c || between 97 122 c.
Definition digit (c : ascii) : bool := between 48 57 c.
Definition one_of (cs : string) (c : ascii) : bool :=
  negb (Str.forallb (fun x => negb (Ascii.eqb x c)) cs).

(** [[A-Z0-9_'+\-\.]] under the [i] flag. *)
Definition local_char (c : ascii) : bool := letter c || digit c || one_of "_'+-." c.
(** [[A-Z0-9_+-]] under the [i] flag. *)
Definition local_last (c : ascii) : bool := letter c || digit c || one_of "_+-" c.
(** [[A-Z0-9]] and [[A-Z0-9\-]] under the [i] flag. *)
Definition label_first (c : ascii) : bool := letter c || digit c.
Definition label_char (c : ascii) : bool := letter c || digit c || one_of "-" c.

Import Regex.

(** The part of the pattern after the look-aheads: any number of
    [local_char], one [local_last], an at sign, one or more labels (a
    [label_first], any number of [label_char], a dot), two or more
    letters. *)
Definition email_body : re :=
  Seq (Star (Class local_char))
 (Seq (Class local_last)
 (Seq (Class (one_of "@"))
 (Seq (Plus (Seq (Class label_first) (Seq (Star (Class label_char)) (Class (one_of ".")))))
 (Seq (Class letter) (Seq (Class letter) (Star (Class letter))))))).

(** The look-ahead [(?!\.)]. *)
Definition starts_with_dot (s : string) : bool :=
  match s with
  | String c _ => one_of "." c
  | EmptyString => false
  end.

(** The look-ahead [(?!.*\.\.)]: two dots in a row before any line
    terminator. *)
Fixpoint dot_dot_ahead (s : string) : bool :=
  match s with
  | EmptyString => false
  | String c r =>
      match r with
      | String d _ =>
          if one_of "." c && one_of "." d then true
          else if one_of (String "010" (String "013" "")) c then false
          else dot_dot_ahead r
      | EmptyString => false
      end
  end.

(** [emailRegex.test(s)]: both look-aheads, then the anchored pattern. *)
Definition emailRegex (s : string) : bool :=
  negb (starts_with_dot s) && negb (dot_dot_ahead s) && matches email_body s.

Inductive check : Type :=
| email
| min (n : nat)
| trim.

(** The loop over [this._def.checks]: the data and whether it is still
    free of issues. *)
Fixpoint run (checks : list check) (data : string) (valid : bool) : string * bool :=
  match checks with
  | [] => (data, valid)
  | email :: rest => run rest data (valid && emailRegex data)
  | min n :: rest => run rest data (valid && (n <=? String.length data)%nat)
  | trim :: rest => run rest (Str.trim data) valid
  end.

End Zod.

(** ** Requests and submitted forms *)

(** An entry of a [FormData]: a string, or an uploaded file. *)
Inductive FormDataEntryValue : Type :=
| FString (s : string)
| FFile (name : string).

Inductive RequestBody : Type :=
| Form (entries : list (string * FormDataEntryValue))
| NotAForm (message : string).

Record Request : Type := {
  Cookie : option string;
  body : RequestBody
}.

(** [request.headers.get("Cookie") || ""] *)
Definition cookie_header (request : Request) : string :=
  match Cookie request with
  | Some c => c
  | None => ""
  end.

Fixpoint set_prop {A : Type} (k : string) (v : A) (o : list (string * A)) : list (string * A) :=
  match o with
  | [] => [(k, v)]
  | (k', v') :: r => if String.eqb k k' then (k, v) :: r else (k', v') :: set_prop k v r
  end.

(** [Object.fromEntries(formData)]: a later entry replaces an earlier one of
    the same name. *)
Definition Object_fromEntries {A : Type} (entries : list (string * A)) : list (string * A) :=
  fold_left (fun o kv => set_prop (fst kv) (snd kv) o) entries [].

(** A [z.string()...] field of a [z.object]: a missing property or a file is
    an [invalid_type] issue, a string goes through the checks. *)
Definition z_string (checks : list Zod.check) (input : option FormDataEntryValue) : option string :=
  match input with
  | Some (FString s) =>
      let (data, valid) := Zod.run checks s true in
      if valid then Some data else None
  | _ => None
  end.

(** ** The backend boundary

    Every helper of [payload-helper.ts] is one [fetch] followed by
    [resp.json()].  A [Call] records which request was sent and what it
    carried; the backend answers with a parsed body, or the call fails
    because the network did or because the body is not JSON. *)

Record Credentials : Type := {
  email : string;
  password : string
}.

Inductive Call : Type :=
| GET_users_me (cookie : string)
| POST_users_login (data : Credentials)
| POST_users_logout (cookie : string)
| POST_users (email password firstName lastName : string)
| GET_users (cookie : string).

Inductive Outcome : Type :=
| Body (json : JSValue)
| NetworkError (message : string)
| MalformedBody (message : string).

(** What a route runs against: the backend, which sees the calls made
    before the current one, and the engine's [Date.parse]. *)
Record Runtime : Type := {
  backend : list Call -> Call -> Outcome;
  Date_parse : string -> option Z
}.

(** What a [throw] carries: an [Error] with its message, or anything else. *)
Inductive Thrown : Type :=
| ErrorObject (message : string)
| OtherValue (v : JSValue).

Inductive Completion (A : Type) : Type :=
| Normal (a : A)
| Abrupt (e : Thrown).
Arguments Normal {A} a.
Arguments Abrupt {A} e.

(** An [async] function: it reads the runtime, extends the list of backend
    calls made so far, and returns or throws. *)
Definition Async (A : Type) : Type := Runtime -> list Call -> list Call * Completion A.

Definition ret {A : Type} (a : A) : Async A := fun _ calls => (calls, Normal a).

Definition throw {A : Type} (e : Thrown) : Async A := fun _ calls => (calls, Abrupt e).

Definition bind {A B : Type} (m : Async A) (k : A -> Async B) : Async B :=
  fun rt calls =>
    match m rt calls with
    | (calls', Normal a) => k a rt calls'
    | (calls', Abrupt e) => (calls', Abrupt e)
    end.

Definition try_catch {A : Type} (m : Async A) (handler : Thrown -> Async A) : Async A :=
  fun rt calls =>
    match m rt calls with
    | (calls', Normal a) => (calls', Normal a)
    | (calls', Abrupt e) => handler e rt calls'
    end.

Definition runtime : Async Runtime := fun rt calls => (calls, Normal rt).

Notation "x <- m ;; k" := (bind m (fun x => k))
  (at level 61, m at next level, right associativity).

(** [await (await fetch(...)).json()] *)
Definition fetch_json (call : Call) : Async JSValue :=
  fun rt calls =>
    match backend rt calls call with
    | Body json => ((calls ++ [call])%list, Normal json)
    | NetworkError m => ((calls ++ [call])%list, Abrupt (ErrorObject m))
    | MalformedBody m => ((calls ++ [call])%list, Abrupt (ErrorObject m))
    end.

(** [await request.formData()] *)
Definition formData (request : Request) : Async (list (string * FormDataEntryValue)) :=
  match body request with
  | Form entries => ret entries
  | NotAForm m => throw (ErrorObject m)
  end.

(** The message of the error that [throw Error(message)] raises: the empty
    string when [message] is [undefined], its text otherwise, and where the
    conversion to text throws, the message of that [TypeError]. *)
Definition Error_message (message : JSValue) : string :=
  match message with
  | JUndefined => ""
  | _ => match ToString message with
         | Some s => s
         | None => cannot_convert
         end
  end.

(** A run that starts with no call made. *)
Definition run {A : Type} (m : Async A) (rt : Runtime) : list Call * Completion A := m rt [].

(** ** [app/utils/payload-helper.ts] *)

Definition checkUser (request : Request) : Async JSValue :=
  user <- fetch_json (GET_users_me (cookie_header request)) ;;
  ret (prop user "user").

Definition loginUser (request : Request) (data : Credentials) : Async JSValue :=
  fetch_json (POST_users_login data).

Definition logoutUser (request : Request) : Async JSValue :=
  fetch_json (POST_users_logout (cookie_header request)).

Definition createUser (email password firstName lastName : string) : Async JSValue :=
  fetch_json (POST_users email password firstName lastName).

(** ** The routes *)

(** What a loader or an action returns. *)
Inductive RouteResult : Type :=
| redirect (url : string) (headers : list (string * string))
| error_data (error : JSValue)
| home_data (user allUsers : JSValue)
| form_data
| no_value.

(** The text of the template literal of the two successful logins,
    [payload-token=${token}; path=/; expires=${new Date(expires).toUTCString()}],
    where its two conversions succeed. *)
Definition session_cookie (rt : Runtime) (token expires : JSValue) : string :=
  "payload-token="
  ++ match ToString token with Some t => t | None => "" end
  ++ "; path=/; expires="
  ++ JSDate.toUTCString (JSDate.construct (Date_parse rt) expires).

(** The template literal evaluated: [None] is the [TypeError] of a token or
    an expiry that cannot be converted to text. *)
Definition session_cookie_literal (rt : Runtime) (token expires : JSValue) : option string :=
  match ToString token, ToString expires with
  | Some _, Some _ => Some (session_cookie rt token expires)
  | _, _ => None
  end.

(** The [catch] block shared by the login and the register action. *)
Definition catch_block (error : Thrown) : Async RouteResult :=
  match error with
  | ErrorObject message => ret (error_data (JStr message))
  | OtherValue _ => ret (error_data (JStr "An unknown error occurred"))
  end.

Module Home.

Definition loader (request : Request) : Async RouteResult :=
  user <- checkUser request ;;
  if negb (truthy user) then ret (redirect "/login" [])
  else
    users <- fetch_json (GET_users (cookie_header request)) ;;
    ret (home_data user (if truthy users then users else JArr [])).

Definition action (request : Request) : Async RouteResult :=
  logoutResp <- logoutUser request ;;
  if truthy (prop logoutResp "errors") then
    ret (error_data (prop (index0 (prop logoutResp "errors")) "message"))
  else
    ret (redirect "/login"
           [("Set-Cookie", "payload-token=; path=/; expires=Thu, 01 Jan 1970 00:00:00 GMT")]).

End Home.

Module Login.

Definition LoginSchema (input : list (string * FormDataEntryValue)) : option Credentials :=
  match z_string [Zod.email; Zod.trim] (assoc "email" input),
        z_string [Zod.min 6] (assoc "password" input) with
  | Some e, Some p => Some {| email := e; password := p |}
  | _, _ => None
  end.

Definition loader (request : Request) : Async RouteResult :=
  user <- checkUser request ;;
  if truthy user then ret (redirect "/" [])
  else ret form_data.

(** The [try] block of the action. *)
Definition try_block (request : Request) : Async RouteResult :=
  entries <- formData request ;;
  match LoginSchema (Object_fromEntries entries) with
  | None => ret (error_data (JStr "Invalid form data"))
  | Some data =>
      loginResp <- loginUser request data ;;
      if truthy (prop loginResp "errors") then
        ret (error_data (prop (index0 (prop loginResp "errors")) "message"))
      else if truthy (prop loginResp "user") then
        rt <- runtime ;;
        match session_cookie_literal rt (prop loginResp "token") (prop loginResp "expires") with
        | Some directive => ret (redirect "/" [("Set-Cookie", directive)])
        | None => throw (ErrorObject cannot_convert)
        end
      else ret no_value
  end.

Definition action (request : Request) : Async RouteResult :=
  try_catch (try_block request) catch_block.

End Login.

Module Register.

Record Registration : Type := {
  email : string;
  password : string;
  firstName : string;
  lastName : string
}.

Definition RegisterSchema (input : list (string * FormDataEntryValue)) : option Registration :=
  match z_string [Zod.email; Zod.trim] (assoc "email" input),
        z_string [Zod.min 6] (assoc "password" input),
        z_string [Zod.min 1; Zod.trim] (assoc "firstName" input),
        z_string [Zod.min 1; Zod.trim] (assoc "lastName" input) with
  | Some e, Some p, Some f, Some l =>
      Some {| email := e; password := p; firstName := f; lastName := l |}
  | _, _, _, _ => None
  end.

Definition loader (request : Request) : Async RouteResult :=
  user <- checkUser request ;;
  if truthy user then ret (redirect "/" [])
  else ret form_data.

(** The [try] block of the action. *)
Definition try_block (request : Request) : Async RouteResult :=
  entries <- formData request ;;
  match RegisterSchema (Object_fromEntries entries) with
  | None => ret (error_data (JStr "Invalid form data"))
  | Some parsed =>
      registerResp <- createUser (email parsed) (password parsed)
                                 (firstName parsed) (lastName parsed) ;;
      if truthy (prop registerResp "errors") then
        throw (ErrorObject
                 (Error_message (prop (index0 (prop registerResp "errors")) "message")))
      else
        loginResp <- loginUser request
                       (Build_Credentials (email parsed) (password parsed)) ;;
        if truthy (prop loginResp "errors") then
          throw (ErrorObject
                   (Error_message (prop (index0 (prop loginResp "errors")) "message")))
        else if truthy (prop loginResp "user") then
          rt <- runtime ;;
          match session_cookie_literal rt (prop loginResp "token") (prop loginResp "expires") with
          | Some directive => ret (redirect "/" [("Set-Cookie", directive)])
          | None => throw (ErrorObject cannot_convert)
          end
        else ret no_value
  end.

Definition action (request : Request) : Async RouteResult :=
  try_catch (try_block request) catch_block.

End Register.

(** ** What the components compute from the data

    The three pages are markup around a few expressions over the data of the
    loader or of the action; those expressions are modelled, the markup is
    not.  [None] stands for the [TypeError] of reading a property of [null]
    or [undefined], or of calling what is no function. *)

(** [actionData?.error ? <p>{actionData?.error}</p> : null], the last child
    of the form in the [Login] and in the [Register] component: the value
    placed in the paragraph, when there is a paragraph. *)
Definition error_banner (actionData : RouteResult) : option JSValue :=
  match actionData with
  | error_data e => if truthy e then Some e else None
  | _ => None
  end.

(** [Array.prototype.join]: [None] when an item cannot be converted to
    text. *)
Fixpoint join (sep : string) (l : list JSValue) : option string :=
  match l with
  | [] => Some ""
  | x :: r =>
      let here := match x with
                  | JUndefined | JNull => Some ""
                  | _ => ToString x
                  end in
      match here, join sep r with
      | Some h, Some rest =>
          Some (match r with
                | [] => h
                | _ :: _ => h ++ sep ++ rest
                end)
      | _, _ => None
      end
  end.

(** [roles.flatMap((role) => role)]: one level of arrays is flattened. *)
Definition flatMap_identity (roles : list JSValue) : list JSValue :=
  flat_map (fun role => match role with JArr xs => xs | _ => [role] end) roles.

(** [user?.roles.flatMap((role) => role).join(", ")] in the [Home]
    component. *)
Definition roles_line (user : JSValue) : option JSValue :=
  match user with
  | JUndefined | JNull => Some JUndefined
  | _ =>
      match prop user "roles" with
      | JArr roles =>
          match join ", " (flatMap_identity roles) with
          | Some line => Some (JStr line)
          | None => None
          end
      | _ => None
      end
  end.

Definition nullish (v : JSValue) : bool :=
  match v with
  | JUndefined | JNull => true
  | _ => false
  end.

(** [allUsers?.docs?.map((user) => <li key={user.id}>{user.email}</li>)] in
    the [Home] component: the key and the child of each item. *)
Definition user_items (allUsers : JSValue) : option (list (JSValue * JSValue)) :=
  match prop allUsers "docs" with
  | JUndefined | JNull => Some []
  | JArr docs =>
      if forallb (fun u => negb (nullish u)) docs
      then Some (map (fun u => (prop u "id", prop u "email")) docs)
      else None
  | _ => None
  end.

(** ** The [access] block of the [Users] collection

    Each function receives the user of the request, [null] when there is
    none.  [None] stands for the [TypeError] of calling an [includes] that is
    no function. *)

Module Users.

(** [hay.includes(needle)] on strings. *)
Fixpoint includes (needle hay : string) : bool :=
  String.prefix needle hay
  || match hay with
     | String _ rest => includes needle rest
     | EmptyString => false
     end.

Definition is_admin_role (role : JSValue) : bool :=
  match role with
  | JStr s => String.eqb s "admin"
  | _ => false
  end.

(** [user?.roles?.includes('admin')] *)
Definition roles_include_admin (user : JSValue) : option JSValue :=
  match prop user "roles" with
  | JUndefined | JNull => Some JUndefined
  | JArr roles => Some (JBool (existsb is_admin_role roles))
  | JStr s => Some (JBool (includes "admin" s))
  | JBool _ | JNum _ | JObj _ => None
  end.

(** The query constraint [{ id: { equals: user?.id } }]. *)
Definition own_record (user : JSValue) : JSValue :=
  JObj [("id", JObj [("equals", prop user "id")])].

Definition create : JSValue := JBool true.

Definition read (user : JSValue) : option JSValue :=
  match roles_include_admin user with
  | Some r => Some (if truthy r then r else own_record user)
  | None => None
  end.

Definition update (user : JSValue) : option JSValue :=
  match roles_include_admin user with
  | Some r => Some (if truthy r then r else own_record user)
  | None => None
  end.

Definition delete (user : JSValue) : option JSValue :=
  match roles_include_admin user with
  | Some r => Some (if truthy r then JBool true else JBool false)
  | None => None
  end.

Definition admin (user : JSValue) : option JSValue :=
  match roles_include_admin user with
  | Some r => Some (if truthy r then JBool true else JBool false)
  | None => None
  end.

End Users.

(** * Properties *)

(** ** Vocabulary of the statements *)

(** The failure shape of the backend, [{ errors: [{message}, ...] }]. *)
Definition structured_failure (json : JSValue) (message : string) : Prop :=
  exists first rest,
    prop json "errors" = JArr (first :: rest) /\ prop first "message" = JStr message.

(** The call failed before a body could be read. *)
Definition transport_failure (o : Outcome) (message : string) : Prop :=
  o = NetworkError message \/ o = MalformedBody message.

(** The [Set-Cookie] header of a result, when it has one. *)
Definition set_cookie (r : RouteResult) : option string :=
  match r with
  | redirect _ headers => assoc "Set-Cookie" headers
  | _ => None
  end.

(** A backend that answers the n-th call with the n-th outcome of a script,
    and a [Date.parse] that recognises nothing. *)
Definition scripted (answers : list Outcome) : Runtime :=
  {| backend := fun calls _ => nth (List.length calls) answers (NetworkError "fetch failed");
     Date_parse := fun _ => None |}.

Definition with_cookie (c : string) : Request :=
  {| Cookie := Some c; body := Form [] |}.

Definition submission (entries : list (string * string)) : Request :=
  {| Cookie := None; body := Form (map (fun kv => (fst kv, FString (snd kv))) entries) |}.

(** No semicolon occurs in [s]. *)
Definition no_semicolon (s : string) : bool :=
  Str.forallb (fun c => negb (Ascii.eqb c ";")) s.

(** The code units that a word of [r] can contain. *)
Fixpoint alphabet (r : Regex.re) (c : ascii) : bool :=
  match r with
  | Regex.Void | Regex.Eps => false
  | Regex.Class p => p c
  | Regex.Seq a b | Regex.Alt a b => alphabet a c || alphabet b c
  | Regex.Star a => alphabet a c
  end.

(** Expressions that visibly match nothing. *)
Fixpoint void (r : Regex.re) : bool :=
  match r with
  | Regex.Void => true
  | Regex.Eps | Regex.Class _ | Regex.Star _ => false
  | Regex.Seq a b => void a || void b
  | Regex.Alt a b => void a && void b
  end.

(** The first code unit of [s], if any, is no white space. *)
Definition starts_clean (s : string) : bool :=
  match s with
  | String c _ => negb (Str.is_space c)
  | EmptyString => true
  end.

(** A route result that carries a redirect. *)
Definition is_redirect (r : RouteResult) : bool :=
  match r with
  | redirect _ _ => true
  | _ => false
  end.

(** The code units of a domain: letters, digits, hyphen and dot. *)
Definition domain_char (c : ascii) : bool := Zod.label_char c || Zod.one_of "." c.

(** Any code unit but the at sign. *)
Definition not_at (c : ascii) : bool := negb (Ascii.eqb c "@").

(** The words of a regular expression. *)
Inductive lang : Regex.re -> string -> Prop :=
| lang_eps : lang Regex.Eps ""
| lang_class p c : p c = true -> lang (Regex.Class p) (String c "")
| lang_seq a b s t : lang a s -> lang b t -> lang (Regex.Seq a b) (s ++ t)
| lang_alt_l a b s : lang a s -> lang (Regex.Alt a b) s
| lang_alt_r a b s : lang b s -> lang (Regex.Alt a b) s
| lang_star_nil a : lang (Regex.Star a) ""
| lang_star_app a s t : lang a s -> lang (Regex.Star a) t -> lang (Regex.Star a) (s ++ t).

(** ** The model on concrete inputs *)

Example trim_both_sides : Str.trim "  a b  " = "a b".
Proof. reflexivity. Qed.

Example trim_blank : Str.trim "   " = "".
Proof. reflexivity. Qed.

Example padded_2 : Str.padded 2 7 = "07" /\ Str.padded 4 33 = "0033" /\ Str.padded 2 123 = "123".
Proof. repeat split; reflexivity. Qed.

Example ToString_array :
  ToString (JArr [JNum 1; JNull; JStr "a"; JArr [JBool true; JNum (-20)]])
    = Some "1,,a,true,-20".
Proof. reflexivity. Qed.

Example Number_toString_cases :
  map JSNumber.toString
      [0; 7; -20; 9007199254740991; 9007199254740993; 1152921504606846976;
       999999999999999900000; 999999999999999999999; 1000000000000000000000;
       -1000000000000000000000; 123456789012345678901234; 2 ^ 1024]%Z
  = ["0"; "7"; "-20"; "9007199254740991"; "9007199254740992"; "1152921504606847000";
     "999999999999999900000"; "1e+21"; "1e+21";
     "-1e+21"; "1.2345678901234569e+23"; "Infinity"].
Proof. vm_compute. reflexivity. Qed.

Example ToString_objects :
  map ToString
      [JObj [("a", JNum 1)]; JObj [("toString", JNum 1)]; JObj [("valueOf", JNull)];
       JArr [JStr "a"; JObj [("toString", JNull)]]; JArr [JArr []; JObj []]]
  = [Some "[object Object]"; None; Some "[object Object]"; None; Some ",[object Object]"].
Proof. reflexivity. Qed.

Example login_with_a_large_numeric_token :
  run (Login.action (submission [("email", "ann@example.org"); ("password", "secret1")]))
      (scripted [Body (JObj [("user", JObj [("id", JNum 7)]);
                             ("token", JNum 1000000000000000000000); ("expires", JNum 0)])])
    = ([POST_users_login {| email := "ann@example.org"; password := "secret1" |}],
       Normal (redirect "/"
                 [("Set-Cookie", "payload-token=1e+21; path=/; expires=Thu, 01 Jan 1970 00:00:00 GMT")])).
Proof. vm_compute. reflexivity. Qed.

Example login_with_a_token_without_text :
  run (Login.action (submission [("email", "ann@example.org"); ("password", "secret1")]))
      (scripted [Body (JObj [("user", JObj [("id", JNum 7)]);
                             ("token", JObj [("toString", JStr "x")]); ("expires", JNum 0)])])
    = ([POST_users_login {| email := "ann@example.org"; password := "secret1" |}],
       Normal (error_data (JStr "Cannot convert object to primitive value"))).
Proof. vm_compute. reflexivity. Qed.

Example toUTCString_epoch : JSDate.toUTCString (Some 0%Z) = "Thu, 01 Jan 1970 00:00:00 GMT".
Proof. reflexivity. Qed.

Example toUTCString_before_epoch :
  JSDate.toUTCString (Some (-1)%Z) = "Wed, 31 Dec 1969 23:59:59 GMT".
Proof. reflexivity. Qed.

Example toUTCString_leap_day :
  JSDate.toUTCString (Some 951782400000%Z) = "Tue, 29 Feb 2000 00:00:00 GMT".
Proof. reflexivity. Qed.

Example toUTCString_2023 :
  JSDate.toUTCString (Some 1700000000000%Z) = "Tue, 14 Nov 2023 22:13:20 GMT".
Proof. reflexivity. Qed.

Example toUTCString_end_of_leap_year :
  JSDate.toUTCString (Some 1735689599000%Z) = "Tue, 31 Dec 2024 23:59:59 GMT".
Proof. reflexivity. Qed.

Example toUTCString_after_leap_day :
  JSDate.toUTCString (Some 1709251200000%Z) = "Fri, 01 Mar 2024 00:00:00 GMT".
Proof. reflexivity. Qed.

Example toUTCString_1900 :
  JSDate.toUTCString (Some (-2208988800000)%Z) = "Mon, 01 Jan 1900 00:00:00 GMT".
Proof. reflexivity. Qed.

Example toUTCString_year_zero :
  JSDate.toUTCString (Some (-62167219200000)%Z) = "Sat, 01 Jan 0000 00:00:00 GMT".
Proof. reflexivity. Qed.

Example emailRegex_plain : Zod.emailRegex "ann.lee@mail.example.org" = true.
Proof. reflexivity. Qed.

Example emailRegex_rejects :
  map Zod.emailRegex
      ["ann"; "ann@example"; ".ann@example.org"; "a..b@example.org"; "ann.@example.org";
       "ann@-x.org"; "ann@example.o"; "ann@@example.org"; " ann@example.org"; "ann@example.org "]
  = [false; false; false; false; false; false; false; false; false; false].
Proof. reflexivity. Qed.

Example fromEntries_last_wins :
  assoc "a" (Object_fromEntries [("a", 1); ("b", 2); ("a", 3)]) = Some 3.
Proof. reflexivity. Qed.

(** ** Supporting lemmas *)

(** *** Dates *)

Lemma DayFromYear_lt (y y' : Z) : (y < y')%Z -> (JSDate.DayFromYear y < JSDate.DayFromYear y')%Z.
Proof. unfold JSDate.DayFromYear. intros H. Z.to_euclidean_division_equations. lia. Qed.

Lemma year_of_day_brackets (d : Z) :
  (JSDate.DayFromYear (JSDate.year_of_day d) <= d
   < JSDate.DayFromYear (JSDate.year_of_day d + 1))%Z.
Proof.
  unfold JSDate.year_of_day. cbv zeta.
  destruct (Z.ltb_spec d (JSDate.DayFromYear (1970 + d * 400 / 146097))) as [H1 | H1].
  - replace (1970 + d * 400 / 146097 - 1 + 1)%Z with (1970 + d * 400 / 146097)%Z by lia.
    split; [| exact H1]. revert H1. unfold JSDate.DayFromYear.
    Z.to_euclidean_division_equations. lia.
  - destruct (Z.leb_spec (JSDate.DayFromYear (1970 + d * 400 / 146097 + 1)) d) as [H2 | H2].
    + split; [exact H2 |]. revert H2. unfold JSDate.DayFromYear.
      Z.to_euclidean_division_equations. lia.
    + lia.
Qed.

(** [YearFromTime t] is the largest year that starts on or before [t]. *)
Lemma YearFromTime_largest (t y : Z) :
  (JSDate.DayFromYear y <= JSDate.Day t)%Z <-> (y <= JSDate.YearFromTime t)%Z.
Proof.
  unfold JSDate.YearFromTime.
  pose proof (year_of_day_brackets (JSDate.Day t)) as [Hlo Hhi]. split; intros H.
  - destruct (Z.le_gt_cases y (JSDate.year_of_day (JSDate.Day t))) as [Hle | Hgt]; [exact Hle |].
    assert (Hm : (JSDate.DayFromYear (JSDate.year_of_day (JSDate.Day t) + 1)
                  <= JSDate.DayFromYear y)%Z).
    { destruct (Z.eq_dec y (JSDate.year_of_day (JSDate.Day t) + 1)) as [-> | Hne]; [lia |].
      apply Z.lt_le_incl, DayFromYear_lt. lia. }
    lia.
  - destruct (Z.eq_dec y (JSDate.year_of_day (JSDate.Day t))) as [-> | Hne]; [exact Hlo |].
    assert ((JSDate.DayFromYear y < JSDate.DayFromYear (JSDate.year_of_day (JSDate.Day t)))%Z)
      by (apply DayFromYear_lt; lia).
    lia.
Qed.

(** The length of a year is the distance between two starts of year. *)
Lemma DaysInYear_DayFromYear (y : Z) :
  (JSDate.DayFromYear (y + 1) = JSDate.DayFromYear y + JSDate.DaysInYear y)%Z.
Proof.
  unfold JSDate.DayFromYear, JSDate.DaysInYear.
  destruct (Z.eqb_spec (y mod 4) 0); destruct (Z.eqb_spec (y mod 100) 0);
    destruct (Z.eqb_spec (y mod 400) 0); cbn [negb];
    Z.to_euclidean_division_equations; lia.
Qed.

(** The text of a date shows whole seconds: milliseconds are dropped. *)
Lemma toUTCString_whole_seconds (t : Z) :
  JSDate.toUTCString (Some (1000 * (t / 1000))%Z) = JSDate.toUTCString (Some t).
Proof.
  assert (Hday : JSDate.Day (1000 * (t / 1000)) = JSDate.Day t).
  { unfold JSDate.Day, JSDate.msPerDay. Z.to_euclidean_division_equations. lia. }
  assert (Hsec : (JSDate.TimeWithinDay (1000 * (t / 1000)) / 1000
                  = JSDate.TimeWithinDay t / 1000)%Z).
  { unfold JSDate.TimeWithinDay, JSDate.msPerDay. Z.to_euclidean_division_equations. lia. }
  assert (Hmin : (JSDate.TimeWithinDay (1000 * (t / 1000)) / 60000
                  = JSDate.TimeWithinDay t / 60000)%Z).
  { unfold JSDate.TimeWithinDay, JSDate.msPerDay. Z.to_euclidean_division_equations. lia. }
  assert (Hhour : (JSDate.TimeWithinDay (1000 * (t / 1000)) / 3600000
                   = JSDate.TimeWithinDay t / 3600000)%Z).
  { unfold JSDate.TimeWithinDay, JSDate.msPerDay. Z.to_euclidean_division_equations. lia. }
  unfold JSDate.toUTCString, JSDate.WeekDay, JSDate.DateFromTime, JSDate.MonthFromTime,
    JSDate.DayWithinYear, JSDate.InLeapYear, JSDate.YearFromTime,
    JSDate.HourFromTime, JSDate.MinFromTime, JSDate.SecFromTime.
  rewrite Hday, Hsec, Hmin, Hhour. reflexivity.
Qed.

(** *** Submitted forms *)

Lemma assoc_set_prop {A : Type} (k k' : string) (v : A) (o : list (string * A)) :
  assoc k' (set_prop k v o) = if String.eqb k' k then Some v else assoc k' o.
Proof.
  induction o as [| [k0 v0] o IH]; simpl; [reflexivity |].
  destruct (String.eqb_spec k k0) as [-> | Hk]; simpl.
  - destruct (String.eqb k' k0); reflexivity.
  - rewrite IH. destruct (String.eqb_spec k' k0) as [-> | Hk0]; [| reflexivity].
    destruct (String.eqb_spec k0 k) as [-> | _]; [contradiction | reflexivity].
Qed.

Lemma assoc_app {A : Type} (k : string) (l l' : list (string * A)) :
  assoc k (l ++ l')%list = match assoc k l with Some v => Some v | None => assoc k l' end.
Proof.
  induction l as [| [k0 v0] l IH]; simpl; [reflexivity |].
  destruct (String.eqb k k0); [reflexivity | exact IH].
Qed.

Lemma fromEntries_from {A : Type} (k : string) (entries o : list (string * A)) :
  assoc k (fold_left (fun o kv => set_prop (fst kv) (snd kv) o) entries o)
  = match assoc k (List.rev entries) with Some v => Some v | None => assoc k o end.
Proof.
  revert o. induction entries as [| [k1 v1] entries IH]; intros o; simpl; [reflexivity |].
  rewrite IH, assoc_app, assoc_set_prop. simpl.
  destruct (assoc k (List.rev entries)); [reflexivity |].
  destruct (String.eqb k k1); reflexivity.
Qed.

(** A property of the validated object is the last entry of that name. *)
Lemma fromEntries_last {A : Type} (k : string) (entries : list (string * A)) :
  assoc k (Object_fromEntries entries) = assoc k (List.rev entries).
Proof.
  unfold Object_fromEntries. rewrite fromEntries_from.
  destruct (assoc k (List.rev entries)); reflexivity.
Qed.

(** *** Backend answers and validation *)

Lemma structured_failure_truthy json m :
  structured_failure json m -> truthy (prop json "errors") = true.
Proof. intros (first & rest & -> & _). reflexivity. Qed.

Lemma structured_failure_message json m :
  structured_failure json m -> prop (index0 (prop json "errors")) "message" = JStr m.
Proof. intros (first & rest & -> & Hm). exact Hm. Qed.

Lemma min_rejects_short n p :
  (String.length p < n)%nat -> z_string [Zod.min n] (Some (FString p)) = None.
Proof.
  intros Hlen. unfold z_string. simpl.
  destruct (Nat.leb_spec n (String.length p)); [lia | reflexivity].
Qed.

Lemma LoginSchema_short_password input p :
  assoc "password" input = Some (FString p) -> (String.length p < 6)%nat ->
  Login.LoginSchema input = None.
Proof.
  intros Hp Hlen. unfold Login.LoginSchema.
  rewrite Hp, (min_rejects_short 6 p Hlen).
  destruct (z_string _ (assoc "email" input)); reflexivity.
Qed.

Lemma RegisterSchema_short_password input p :
  assoc "password" input = Some (FString p) -> (String.length p < 6)%nat ->
  Register.RegisterSchema input = None.
Proof.
  intros Hp Hlen. unfold Register.RegisterSchema.
  rewrite Hp, (min_rejects_short 6 p Hlen).
  destruct (z_string _ (assoc "email" input)); reflexivity.
Qed.

(** Unfolds one run of a route down to the backend's answers. *)
Ltac step_route :=
  cbv [run Home.loader Home.action Login.loader Login.action Register.loader Register.action
       Login.try_block Register.try_block
       checkUser loginUser logoutUser createUser fetch_json formData
       bind try_catch ret throw runtime catch_block].

(** ** Route guard *)

(** C6: when the identity request resolves the cookie to a user, the loader
    of the login page and the loader of the register page both answer with
    a redirect to the home page; the form data is not returned. *)
Theorem authenticated_visitor_sent_home (rt : Runtime) (request : Request) (json : JSValue) :
  backend rt [] (GET_users_me (cookie_header request)) = Body json ->
  truthy (prop json "user") = true ->
  run (Login.loader request) rt
    = ([GET_users_me (cookie_header request)], Normal (redirect "/" []))
  /\ run (Register.loader request) rt
    = ([GET_users_me (cookie_header request)], Normal (redirect "/" [])).
Proof.
  intros Hme Huser. split; step_route; rewrite Hme; simpl; rewrite Huser; reflexivity.
Qed.

Lemma authenticated_visitor_sent_home_witness :
  let rt := scripted [Body (JObj [("user", JObj [("id", JNum 7); ("email", JStr "ann@example.org")])])] in
  let request := with_cookie "payload-token=abc" in
  run (Login.loader request) rt = ([GET_users_me "payload-token=abc"], Normal (redirect "/" []))
  /\ run (Register.loader request) rt = ([GET_users_me "payload-token=abc"], Normal (redirect "/" [])).
Proof.
  intros rt request.
  apply (authenticated_visitor_sent_home rt request
           (JObj [("user", JObj [("id", JNum 7); ("email", JStr "ann@example.org")])]));
    reflexivity.
Defined.

(** C7: when the identity request does not resolve the cookie to a user, the
    home loader answers with a redirect to [/login], and the identity request
    is the only call it has made: the user listing is not requested. *)
Theorem anonymous_visitor_sent_to_login (rt : Runtime) (request : Request) (json : JSValue) :
  backend rt [] (GET_users_me (cookie_header request)) = Body json ->
  truthy (prop json "user") = false ->
  run (Home.loader request) rt
    = ([GET_users_me (cookie_header request)], Normal (redirect "/login" [])).
Proof.
  intros Hme Huser. step_route. rewrite Hme. simpl. rewrite Huser. reflexivity.
Qed.

Lemma anonymous_visitor_sent_to_login_witness :
  run (Home.loader (with_cookie "payload-token=stale")) (scripted [Body (JObj [("user", JNull)])])
    = ([GET_users_me "payload-token=stale"], Normal (redirect "/login" [])).
Proof.
  apply (anonymous_visitor_sent_to_login
           (scripted [Body (JObj [("user", JNull)])]) (with_cookie "payload-token=stale")
           (JObj [("user", JNull)])); reflexivity.
Defined.

(** ** Validation before any call *)

(** C8: when the submitted password is shorter than six code units, the login
    action and the register action both return [{error: "Invalid form data"}]
    and have made no backend call. *)
Theorem short_password_rejected_offline
    (rt : Runtime) (request : Request)
    (entries : list (string * FormDataEntryValue)) (p : string) :
  body request = Form entries ->
  assoc "password" (Object_fromEntries entries) = Some (FString p) ->
  (String.length p < 6)%nat ->
  run (Login.action request) rt = ([], Normal (error_data (JStr "Invalid form data")))
  /\ run (Register.action request) rt = ([], Normal (error_data (JStr "Invalid form data"))).
Proof.
  intros Hbody Hp Hlen. split; step_route; rewrite Hbody.
  - rewrite (LoginSchema_short_password _ p Hp Hlen). reflexivity.
  - rewrite (RegisterSchema_short_password _ p Hp Hlen). reflexivity.
Qed.

Lemma short_password_rejected_offline_witness :
  let request := submission [("email", "ann@example.org"); ("password", "12345");
                             ("firstName", "Ann"); ("lastName", "Lee")] in
  let rt := scripted [] in
  run (Login.action request) rt = ([], Normal (error_data (JStr "Invalid form data")))
  /\ run (Register.action request) rt = ([], Normal (error_data (JStr "Invalid form data"))).
Proof.
  intros request rt.
  apply (short_password_rejected_offline rt request _ "12345" eq_refl); [reflexivity | simpl; lia].
Defined.

(** ** Logout *)

(** The directive that the logout action sends is the session cookie with an
    empty token and the epoch as expiry. *)
Lemma clearing_cookie_is_epoch (rt : Runtime) :
  session_cookie rt (JStr "") (JNum 0)
    = "payload-token=; path=/; expires=Thu, 01 Jan 1970 00:00:00 GMT".
Proof. reflexivity. Qed.

(** C1, as the code has it: a logout whose answer carries no [errors] is
    redirected to [/login] with the cookie [payload-token] emptied and
    expiring at the epoch; a logout answered by a structured failure returns
    the first message and sends no [Set-Cookie] at all. *)
Theorem logout_clears_cookie_unless_rejected
    (rt : Runtime) (request : Request) (json : JSValue) :
  backend rt [] (POST_users_logout (cookie_header request)) = Body json ->
  (truthy (prop json "errors") = false ->
     run (Home.action request) rt
       = ([POST_users_logout (cookie_header request)],
          Normal (redirect "/login" [("Set-Cookie", session_cookie rt (JStr "") (JNum 0))])))
  /\ (forall m, structured_failure json m ->
        run (Home.action request) rt
          = ([POST_users_logout (cookie_header request)], Normal (error_data (JStr m)))
        /\ set_cookie (error_data (JStr m)) = None).
Proof.
  intros Hout. split.
  - intros Hok. step_route. rewrite Hout. cbv beta iota. simpl app. rewrite Hok. reflexivity.
  - intros m Hfail. split; [| reflexivity].
    step_route. rewrite Hout. cbv beta iota. simpl app.
    rewrite (structured_failure_truthy _ _ Hfail), (structured_failure_message _ _ Hfail).
    reflexivity.
Qed.

Lemma logout_clears_cookie_unless_rejected_witness :
  run (Home.action (with_cookie "payload-token=abc"))
      (scripted [Body (JObj [("message", JStr "Logged out")])])
    = ([POST_users_logout "payload-token=abc"],
       Normal (redirect "/login"
                 [("Set-Cookie", "payload-token=; path=/; expires=Thu, 01 Jan 1970 00:00:00 GMT")])).
Proof.
  exact (proj1 (logout_clears_cookie_unless_rejected
                  (scripted [Body (JObj [("message", JStr "Logged out")])])
                  (with_cookie "payload-token=abc")
                  (JObj [("message", JStr "Logged out")]) eq_refl) eq_refl).
Defined.

(** C1, as stated, fails: the backend reports a structured failure and the
    response of the logout action carries no cookie directive. *)
Lemma logout_failure_leaves_cookie :
  let failure := JObj [("errors", JArr [JObj [("message", JStr "No User")]])] in
  let outcome := run (Home.action (with_cookie "payload-token=abc")) (scripted [Body failure]) in
  structured_failure failure "No User"
  /\ outcome = ([POST_users_logout "payload-token=abc"], Normal (error_data (JStr "No User")))
  /\ (forall r, snd outcome = Normal r -> set_cookie r = None).
Proof.
  intros failure outcome. split; [| split].
  - exists (JObj [("message", JStr "No User")]), []. split; reflexivity.
  - reflexivity.
  - intros r Hr. vm_compute in Hr. injection Hr as <-. reflexivity.
Qed.

(** ** Transport failures *)

Lemma login_action_returns (rt : Runtime) (request : Request) :
  exists calls r, run (Login.action request) rt = (calls, Normal r).
Proof.
  step_route. destruct (body request) as [entries | m]; [| eauto].
  destruct (Login.LoginSchema _) as [data |]; [| eauto].
  destruct (backend rt [] _) as [json | m | m]; cbv beta iota; [| eauto | eauto].
  destruct (truthy (prop json "errors")); [eauto |].
  destruct (truthy (prop json "user")); [| eauto].
  destruct (session_cookie_literal rt _ _); eauto.
Qed.

Lemma register_action_returns (rt : Runtime) (request : Request) :
  exists calls r, run (Register.action request) rt = (calls, Normal r).
Proof.
  step_route. destruct (body request) as [entries | m]; [| eauto].
  destruct (Register.RegisterSchema _) as [parsed |]; [| eauto].
  destruct (backend rt [] _) as [json | m | m]; cbv beta iota; [| eauto | eauto].
  destruct (truthy (prop json "errors")); [eauto |].
  destruct (backend rt _ _) as [json' | m | m]; cbv beta iota; [| eauto | eauto].
  destruct (truthy (prop json' "errors")); [eauto |].
  destruct (truthy (prop json' "user")); [| eauto].
  destruct (session_cookie_literal rt _ _); eauto.
Qed.

Lemma fetch_json_transport_failure (rt : Runtime) (calls : list Call) (call : Call) (m : string) :
  transport_failure (backend rt calls call) m ->
  fetch_json call rt calls = ((calls ++ [call])%list, Abrupt (ErrorObject m)).
Proof. unfold fetch_json. intros [-> | ->]; reflexivity. Qed.

Lemma catch_block_generic (e : Thrown) (rt : Runtime) (calls : list Call) :
  catch_block e rt calls = (calls, Normal (error_data (JStr "An unknown error occurred")))
  <-> (exists v, e = OtherValue v) \/ e = ErrorObject "An unknown error occurred".
Proof.
  destruct e as [m | v]; cbv [catch_block ret]; split.
  - intros H. injection H as ->. right. reflexivity.
  - intros [[v H] | H]; [discriminate | injection H as ->; reflexivity].
  - intros _. left. exists v. reflexivity.
  - reflexivity.
Qed.

Lemma login_try_block_throws_errors
    (rt : Runtime) (request : Request) (calls : list Call) (e : Thrown) :
  run (Login.try_block request) rt = (calls, Abrupt e) -> exists m, e = ErrorObject m.
Proof.
  step_route. destruct (body request) as [entries | m]; cbv beta iota.
  - destruct (Login.LoginSchema _) as [data |]; [| discriminate].
    destruct (backend rt [] _) as [json | m | m]; cbv beta iota.
    + destruct (truthy (prop json "errors")); [discriminate |].
      destruct (truthy (prop json "user")); [| discriminate].
      destruct (session_cookie_literal rt _ _); [discriminate |].
      intros H. injection H as _ <-. eauto.
    + intros H. injection H as _ <-. eauto.
    + intros H. injection H as _ <-. eauto.
  - intros H. injection H as _ <-. eauto.
Qed.

Lemma register_try_block_throws_errors
    (rt : Runtime) (request : Request) (calls : list Call) (e : Thrown) :
  run (Register.try_block request) rt = (calls, Abrupt e) -> exists m, e = ErrorObject m.
Proof.
  step_route. destruct (body request) as [entries | m]; cbv beta iota.
  - destruct (Register.RegisterSchema _) as [parsed |]; [| discriminate].
    destruct (backend rt [] _) as [created | m | m]; cbv beta iota.
    + destruct (truthy (prop created "errors")); cbv beta iota.
      * intros H. injection H as _ <-. eauto.
      * destruct (backend rt (_ ++ _) _) as [json | m | m]; cbv beta iota.
        -- destruct (truthy (prop json "errors")); cbv beta iota.
           ++ intros H. injection H as _ <-. eauto.
           ++ destruct (truthy (prop json "user")); [| discriminate].
              destruct (session_cookie_literal rt _ _); [discriminate |].
              intros H. injection H as _ <-. eauto.
        -- intros H. injection H as _ <-. eauto.
        -- intros H. injection H as _ <-. eauto.
    + intros H. injection H as _ <-. eauto.
    + intros H. injection H as _ <-. eauto.
  - intros H. injection H as _ <-. eauto.
Qed.

Lemma caught_error_is_returned
    (try_block : Async RouteResult) (rt : Runtime) (calls : list Call) (m : string) :
  run try_block rt = (calls, Abrupt (ErrorObject m)) ->
  run (try_catch try_block catch_block) rt = (calls, Normal (error_data (JStr m))).
Proof. cbv [run try_catch catch_block ret]. intros ->. reflexivity. Qed.

(** C2, as the code has it: only the login and the register action catch.
    They always return: whatever is thrown in their [try] block is an
    [Error], and it comes back as [{error: m}] with its own message [m].  So
    does a transport failure of the login call, of the account creation and
    of the login that follows a creation.  The generic message is returned
    for a thrown value that is no [Error] or for an [Error] that has this
    very message, and for nothing else.  The three loaders and the logout
    action have no handler: a transport failure of the identity request, of
    the listing request or of the logout request leaves them as an
    exception. *)
Theorem transport_failure_caught_by_form_actions_only (rt : Runtime) (request : Request) :
  (exists calls r, run (Login.action request) rt = (calls, Normal r))
  /\ (exists calls r, run (Register.action request) rt = (calls, Normal r))
  /\ (forall calls e,
        run (Login.try_block request) rt = (calls, Abrupt e) ->
        exists m, e = ErrorObject m
                  /\ run (Login.action request) rt = (calls, Normal (error_data (JStr m))))
  /\ (forall calls e,
        run (Register.try_block request) rt = (calls, Abrupt e) ->
        exists m, e = ErrorObject m
                  /\ run (Register.action request) rt = (calls, Normal (error_data (JStr m))))
  /\ (forall entries data m,
        body request = Form entries ->
        Login.LoginSchema (Object_fromEntries entries) = Some data ->
        transport_failure (backend rt [] (POST_users_login data)) m ->
        run (Login.action request) rt
          = ([POST_users_login data], Normal (error_data (JStr m))))
  /\ (forall entries parsed m,
        body request = Form entries ->
        Register.RegisterSchema (Object_fromEntries entries) = Some parsed ->
        let create := POST_users (Register.email parsed) (Register.password parsed)
                                 (Register.firstName parsed) (Register.lastName parsed) in
        transport_failure (backend rt [] create) m ->
        run (Register.action request) rt = ([create], Normal (error_data (JStr m))))
  /\ (forall entries parsed created m,
        body request = Form entries ->
        Register.RegisterSchema (Object_fromEntries entries) = Some parsed ->
        let create := POST_users (Register.email parsed) (Register.password parsed)
                                 (Register.firstName parsed) (Register.lastName parsed) in
        let login := POST_users_login
                       (Build_Credentials (Register.email parsed) (Register.password parsed)) in
        backend rt [] create = Body created ->
        truthy (prop created "errors") = false ->
        transport_failure (backend rt [create] login) m ->
        run (Register.action request) rt = ([create; login], Normal (error_data (JStr m))))
  /\ (forall e calls,
        catch_block e rt calls
          = (calls, Normal (error_data (JStr "An unknown error occurred")))
        <-> (exists v, e = OtherValue v) \/ e = ErrorObject "An unknown error occurred")
  /\ (forall m,
        transport_failure (backend rt [] (GET_users_me (cookie_header request))) m ->
        run (Home.loader request) rt
          = ([GET_users_me (cookie_header request)], Abrupt (ErrorObject m))
        /\ run (Login.loader request) rt
          = ([GET_users_me (cookie_header request)], Abrupt (ErrorObject m))
        /\ run (Register.loader request) rt
          = ([GET_users_me (cookie_header request)], Abrupt (ErrorObject m)))
  /\ (forall json m,
        backend rt [] (GET_users_me (cookie_header request)) = Body json ->
        truthy (prop json "user") = true ->
        transport_failure
          (backend rt [GET_users_me (cookie_header request)]
                   (GET_users (cookie_header request))) m ->
        run (Home.loader request) rt
          = ([GET_users_me (cookie_header request); GET_users (cookie_header request)],
             Abrupt (ErrorObject m)))
  /\ (forall m,
        transport_failure (backend rt [] (POST_users_logout (cookie_header request))) m ->
        run (Home.action request) rt
          = ([POST_users_logout (cookie_header request)], Abrupt (ErrorObject m))).
Proof.
  split; [apply login_action_returns |].
  split; [apply register_action_returns |].
  split.
  { intros calls e H. destruct (login_try_block_throws_errors _ _ _ _ H) as [m ->].
    exists m. split; [reflexivity |]. exact (caught_error_is_returned _ _ _ _ H). }
  split.
  { intros calls e H. destruct (register_try_block_throws_errors _ _ _ _ H) as [m ->].
    exists m. split; [reflexivity |]. exact (caught_error_is_returned _ _ _ _ H). }
  split.
  { intros entries data m Hbody Hdata Hfail.
    cbv [run Login.action Login.try_block try_catch bind formData loginUser ret catch_block].
    rewrite Hbody. cbv beta iota. rewrite Hdata.
    rewrite (fetch_json_transport_failure _ _ _ _ Hfail). reflexivity. }
  split.
  { intros entries parsed m Hbody Hparsed create Hfail.
    cbv [run Register.action Register.try_block try_catch bind formData createUser ret
         catch_block].
    rewrite Hbody. cbv beta iota. rewrite Hparsed. fold create.
    rewrite (fetch_json_transport_failure _ _ _ _ Hfail). reflexivity. }
  split.
  { intros entries parsed created m Hbody Hparsed create login Hcreate Hok Hfail.
    cbv [run Register.action Register.try_block try_catch bind formData createUser loginUser
         ret throw catch_block].
    rewrite Hbody. cbv beta iota. rewrite Hparsed. fold create.
    assert (Hfirst : fetch_json create rt [] = ([create], Normal created))
      by (unfold fetch_json; rewrite Hcreate; reflexivity).
    rewrite Hfirst. cbv beta iota. rewrite Hok. fold login.
    rewrite (fetch_json_transport_failure _ _ _ _ Hfail). reflexivity. }
  split; [intros e calls; apply catch_block_generic |].
  split.
  { intros m Hfail.
    repeat split;
      cbv [run Home.loader Login.loader Register.loader checkUser bind];
      rewrite (fetch_json_transport_failure _ _ _ _ Hfail); reflexivity. }
  split.
  { intros json m Hme Huser Hfail.
    cbv [run Home.loader checkUser bind ret].
    assert (Hfirst : fetch_json (GET_users_me (cookie_header request)) rt []
                     = ([GET_users_me (cookie_header request)], Normal json))
      by (unfold fetch_json; rewrite Hme; reflexivity).
    rewrite Hfirst. cbv beta iota. rewrite Huser. cbn [negb]. cbv beta iota.
    rewrite (fetch_json_transport_failure _ _ _ _ Hfail). reflexivity. }
  intros m Hfail.
  cbv [run Home.action logoutUser bind].
  rewrite (fetch_json_transport_failure _ _ _ _ Hfail). reflexivity.
Qed.

Lemma transport_failure_caught_by_form_actions_only_witness :
  let request := submission [("email", "ann@example.org"); ("password", "secret1");
                             ("firstName", "Ann"); ("lastName", "Lee")] in
  run (Login.action request)
      (scripted [MalformedBody "Unexpected token < in JSON at position 0"])
    = ([POST_users_login {| email := "ann@example.org"; password := "secret1" |}],
       Normal (error_data (JStr "Unexpected token < in JSON at position 0")))
  /\ run (Register.action request)
         (scripted [Body (JObj [("doc", JObj [("id", JNum 7)])]); NetworkError "fetch failed"])
    = ([POST_users "ann@example.org" "secret1" "Ann" "Lee";
        POST_users_login {| email := "ann@example.org"; password := "secret1" |}],
       Normal (error_data (JStr "fetch failed"))).
Proof.
  intros request. split.
  - destruct (transport_failure_caught_by_form_actions_only
                (scripted [MalformedBody "Unexpected token < in JSON at position 0"]) request)
      as (_ & _ & _ & _ & Hlogin & _).
    refine (Hlogin _ {| email := "ann@example.org"; password := "secret1" |} _ eq_refl _ _).
    + vm_compute. reflexivity.
    + right. reflexivity.
  - destruct (transport_failure_caught_by_form_actions_only
                (scripted [Body (JObj [("doc", JObj [("id", JNum 7)])]);
                           NetworkError "fetch failed"]) request)
      as (_ & _ & _ & _ & _ & _ & Hafter & _).
    refine (Hafter _ {| Register.email := "ann@example.org"; Register.password := "secret1";
                        Register.firstName := "Ann"; Register.lastName := "Lee" |}
                   (JObj [("doc", JObj [("id", JNum 7)])]) _ eq_refl _ eq_refl eq_refl _).
    + vm_compute. reflexivity.
    + left. reflexivity.
Defined.

(** C2, as stated, fails: with the backend unreachable, each of the three
    loaders ends in an exception, and so does the logout action; where the
    failure is caught, the message shown is the exception's, not the generic
    one. *)
Lemma loader_transport_failure_propagates :
  let down := scripted [NetworkError "fetch failed"] in
  let request := with_cookie "payload-token=abc" in
  run (Home.loader request) down
    = ([GET_users_me "payload-token=abc"], Abrupt (ErrorObject "fetch failed"))
  /\ run (Login.loader request) down
    = ([GET_users_me "payload-token=abc"], Abrupt (ErrorObject "fetch failed"))
  /\ run (Register.loader request) down
    = ([GET_users_me "payload-token=abc"], Abrupt (ErrorObject "fetch failed"))
  /\ run (Home.action request) down
    = ([POST_users_logout "payload-token=abc"], Abrupt (ErrorObject "fetch failed"))
  /\ snd (run (Login.action (submission [("email", "ann@example.org"); ("password", "secret1")]))
            down)
    = Normal (error_data (JStr "fetch failed")).
Proof. repeat split; vm_compute; reflexivity. Qed.

(** ** Login *)


Lemma session_cookie_literal_inv
    (rt : Runtime) (token expires : JSValue) (directive : string) :
  session_cookie_literal rt token expires = Some directive ->
  exists t,
    ToString token = Some t /\ ToString expires <> None
    /\ directive = "payload-token=" ++ t ++ "; path=/; expires="
                   ++ JSDate.toUTCString (JSDate.construct (Date_parse rt) expires).
Proof.
  unfold session_cookie_literal, session_cookie.
  destruct (ToString token) as [t |]; [| discriminate].
  destruct (ToString expires) as [x |]; [| discriminate].
  intros H. injection H as <-. exists t. repeat split. discriminate.
Qed.






(** C10: a valid login whose answer is an object with neither [errors] nor
    [user] makes the login action return nothing, neither an error nor a
    redirect, hence no cookie; the register action does the same when the
    account was created and the login that follows is answered that way. *)
Theorem answer_without_errors_or_user_returns_nothing
    (rt : Runtime) (request : Request) (entries : list (string * FormDataEntryValue)) :
  body request = Form entries ->
  (forall data props,
     Login.LoginSchema (Object_fromEntries entries) = Some data ->
     backend rt [] (POST_users_login data) = Body (JObj props) ->
     assoc "errors" props = None -> assoc "user" props = None ->
     run (Login.action request) rt = ([POST_users_login data], Normal no_value))
  /\ (forall parsed created props,
     Register.RegisterSchema (Object_fromEntries entries) = Some parsed ->
     let create := POST_users (Register.email parsed) (Register.password parsed)
                              (Register.firstName parsed) (Register.lastName parsed) in
     let login := POST_users_login
                    (Build_Credentials (Register.email parsed) (Register.password parsed)) in
     backend rt [] create = Body created ->
     truthy (prop created "errors") = false ->
     backend rt [create] login = Body (JObj props) ->
     assoc "errors" props = None -> assoc "user" props = None ->
     run (Register.action request) rt = ([create; login], Normal no_value)).
Proof.
  intros Hbody. split.
  - intros data props Hdata Hout Herr Huser.
    step_route. rewrite Hbody. cbv beta iota. rewrite Hdata, Hout. cbv beta iota.
    unfold prop. rewrite Herr, Huser. reflexivity.
  - intros parsed created props Hparsed create login Hcreate Hok Hlogin Herr Huser.
    step_route. rewrite Hbody. cbv beta iota. rewrite Hparsed.
    fold create. rewrite Hcreate. cbv beta iota. rewrite Hok.
    simpl app. fold login. rewrite Hlogin. cbv beta iota.
    unfold prop. rewrite Herr, Huser. reflexivity.
Qed.

Lemma answer_without_errors_or_user_returns_nothing_witness :
  let request := submission [("email", "ann@example.org"); ("password", "secret1");
                             ("firstName", "Ann"); ("lastName", "Lee")] in
  run (Login.action request) (scripted [Body (JObj [("message", JStr "ok")])])
    = ([POST_users_login {| email := "ann@example.org"; password := "secret1" |}],
       Normal no_value)
  /\ run (Register.action request)
         (scripted [Body (JObj [("doc", JObj [("id", JNum 7)])]);
                    Body (JObj [("message", JStr "ok")])])
    = ([POST_users "ann@example.org" "secret1" "Ann" "Lee";
        POST_users_login {| email := "ann@example.org"; password := "secret1" |}],
       Normal no_value)
  /\ set_cookie no_value = None.
Proof.
  intros request. split; [| split; [| reflexivity]].
  - exact (proj1 (answer_without_errors_or_user_returns_nothing
                    (scripted [Body (JObj [("message", JStr "ok")])]) request _ eq_refl)
                 {| email := "ann@example.org"; password := "secret1" |}
                 [("message", JStr "ok")] eq_refl eq_refl eq_refl eq_refl).
  - exact (proj2 (answer_without_errors_or_user_returns_nothing
                    (scripted [Body (JObj [("doc", JObj [("id", JNum 7)])]);
                               Body (JObj [("message", JStr "ok")])]) request _ eq_refl)
                 {| Register.email := "ann@example.org"; Register.password := "secret1";
                    Register.firstName := "Ann"; Register.lastName := "Lee" |}
                 (JObj [("doc", JObj [("id", JNum 7)])])
                 [("message", JStr "ok")] eq_refl eq_refl eq_refl eq_refl eq_refl eq_refl).
Defined.

(** ** Registration *)



(** ** The credential schemas *)

(** *** Code units of a matched string *)

Lemma void_not_nullable r : void r = true -> Regex.nullable r = false.
Proof.
  induction r; simpl; intros H; try discriminate; try reflexivity.
  - apply orb_true_iff in H as [H | H];
      [rewrite (IHr1 H) | rewrite (IHr2 H), andb_false_r]; reflexivity.
  - apply andb_prop in H as [H1 H2]. rewrite (IHr1 H1), (IHr2 H2). reflexivity.
Qed.

Lemma void_deriv c r : void r = true -> void (Regex.deriv c r) = true.
Proof.
  induction r; simpl; intros H; try discriminate; try reflexivity.
  - apply orb_true_iff in H as [H | H].
    + rewrite (void_not_nullable _ H). simpl. rewrite (IHr1 H). reflexivity.
    + destruct (Regex.nullable r1); simpl; rewrite ?(IHr2 H), H, ?orb_true_r; reflexivity.
  - apply andb_prop in H as [H1 H2]. rewrite (IHr1 H1), (IHr2 H2). reflexivity.
Qed.

Lemma void_matches_nothing s : forall r, void r = true -> Regex.matches r s = false.
Proof.
  induction s as [| c s IH]; intros r H; simpl.
  - apply void_not_nullable, H.
  - apply IH, void_deriv, H.
Qed.

Lemma deriv_outside_alphabet c r : alphabet r c = false -> void (Regex.deriv c r) = true.
Proof.
  induction r; simpl; intros H; try reflexivity.
  - rewrite H. reflexivity.
  - apply orb_false_iff in H as [H1 H2].
    destruct (Regex.nullable r1); simpl; rewrite (IHr1 H1), ?(IHr2 H2); reflexivity.
  - apply orb_false_iff in H as [H1 H2]. rewrite (IHr1 H1), (IHr2 H2). reflexivity.
  - rewrite (IHr H). reflexivity.
Qed.

Lemma alphabet_deriv d r c : alphabet (Regex.deriv d r) c = true -> alphabet r c = true.
Proof.
  induction r; simpl; intros H; try discriminate.
  - destruct (p d); discriminate.
  - destruct (Regex.nullable r1); simpl in H;
      repeat (apply orb_true_iff in H as [H | H]);
      rewrite ?(IHr1 H), ?(IHr2 H), ?H, ?orb_true_r; reflexivity.
  - apply orb_true_iff in H as [H | H];
      rewrite ?(IHr1 H), ?(IHr2 H), ?orb_true_r; reflexivity.
  - apply orb_true_iff in H as [H | H]; [apply IHr, H | exact H].
Qed.

Lemma forallb_weaken (p q : ascii -> bool) s :
  (forall c, p c = true -> q c = true) -> Str.forallb p s = true -> Str.forallb q s = true.
Proof.
  intros Hpq. induction s as [| c s IH]; simpl; [reflexivity |].
  intros H. apply andb_prop in H as [Hc Hs]. rewrite (Hpq c Hc), (IH Hs). reflexivity.
Qed.

Lemma matches_alphabet s : forall r, Regex.matches r s = true -> Str.forallb (alphabet r) s = true.
Proof.
  induction s as [| c s IH]; intros r H; simpl in *; [reflexivity |].
  apply andb_true_intro. split.
  - destruct (alphabet r c) eqn:Hc; [reflexivity |].
    rewrite (void_matches_nothing s _ (deriv_outside_alphabet c r Hc)) in H. discriminate.
  - apply (forallb_weaken (alphabet (Regex.deriv c r))); [apply alphabet_deriv | apply IH, H].
Qed.

(** *** Trimming a string without white space *)

Lemma forallb_app p s t :
  Str.forallb p (s ++ t) = Str.forallb p s && Str.forallb p t.
Proof.
  induction s as [| c s IH]; simpl; [reflexivity |]. rewrite IH, andb_assoc. reflexivity.
Qed.

Lemma forallb_rev p s : Str.forallb p (Str.rev s) = Str.forallb p s.
Proof.
  induction s as [| c s IH]; simpl; [reflexivity |].
  rewrite forallb_app, IH. simpl. rewrite andb_true_r, andb_comm. reflexivity.
Qed.

Lemma rev_app s t : Str.rev (s ++ t) = Str.rev t ++ Str.rev s.
Proof.
  induction s as [| c s IH]; simpl.
  - induction (Str.rev t) as [| d u IHu]; simpl; [reflexivity | rewrite <- IHu; reflexivity].
  - rewrite IH. clear IH.
    induction (Str.rev t) as [| d u IHu]; simpl; [reflexivity | rewrite IHu; reflexivity].
Qed.

Lemma rev_involutive s : Str.rev (Str.rev s) = s.
Proof.
  induction s as [| c s IH]; simpl; [reflexivity |]. rewrite rev_app, IH. reflexivity.
Qed.

Lemma drop_while_none p s :
  Str.forallb (fun c => negb (p c)) s = true -> Str.drop_while p s = s.
Proof.
  destruct s as [| c s]; simpl; [reflexivity |].
  intros H. apply andb_prop in H as [Hc _]. destruct (p c); [discriminate | reflexivity].
Qed.

Lemma trim_without_space s :
  Str.forallb (fun c => negb (Str.is_space c)) s = true -> Str.trim s = s.
Proof.
  intros H. unfold Str.trim.
  rewrite (drop_while_none _ s H), drop_while_none, rev_involutive; [reflexivity |].
  rewrite forallb_rev. exact H.
Qed.

Lemma email_alphabet_no_space c :
  alphabet Zod.email_body c = true -> negb (Str.is_space c) = true.
Proof.
  destruct c as [[] [] [] [] [] [] [] []]; vm_compute; intros H; first [reflexivity | discriminate H].
Qed.

(** An address that passes the [email] check has no white space to trim. *)
Lemma emailRegex_trimmed s : Zod.emailRegex s = true -> Str.trim s = s.
Proof.
  unfold Zod.emailRegex. intros H. apply andb_prop in H as [_ H].
  apply trim_without_space.
  apply (forallb_weaken (alphabet Zod.email_body)); [apply email_alphabet_no_space |].
  apply matches_alphabet, H.
Qed.

(** C3: what the two schemas do with white space.  Each field runs its checks
    in the order in which they are chained, so [email] and [min] see the text
    as submitted and [trim] comes last: an address is accepted exactly when
    the submitted text itself matches the pattern, and it comes out
    unchanged; a name is accepted exactly when the submitted text is not
    empty, and comes out trimmed.  A padded address is therefore refused and
    a blank name is accepted as the empty name. *)
Theorem schema_checks_run_before_trim :
  (forall s, z_string [Zod.email; Zod.trim] (Some (FString s))
             = if Zod.emailRegex s then Some s else None)
  /\ (forall s, z_string [Zod.min 1; Zod.trim] (Some (FString s))
                = if (1 <=? String.length s)%nat then Some (Str.trim s) else None)
  /\ Zod.emailRegex "ann@example.org" = true
  /\ Login.LoginSchema
       (Object_fromEntries [("email", FString " ann@example.org ");
                            ("password", FString "secret1")]) = None
  /\ Register.RegisterSchema
       (Object_fromEntries [("email", FString " ann@example.org ");
                            ("password", FString "secret1");
                            ("firstName", FString "Ann"); ("lastName", FString "Lee")]) = None
  /\ Register.RegisterSchema
       (Object_fromEntries [("email", FString "ann@example.org");
                            ("password", FString "secret1");
                            ("firstName", FString "   "); ("lastName", FString "Lee")])
     = Some {| Register.email := "ann@example.org"; Register.password := "secret1";
               Register.firstName := ""; Register.lastName := "Lee" |}.
Proof.
  split; [| split; [| repeat split; vm_compute; reflexivity]].
  - intros s. unfold z_string. simpl.
    destruct (Zod.emailRegex s) eqn:Hs; [| reflexivity].
    rewrite (emailRegex_trimmed s Hs). reflexivity.
  - intros s. unfold z_string. simpl.
    destruct (1 <=? String.length s)%nat; reflexivity.
Qed.

(** ** The cookie between response and request *)

Lemma app_assoc_string (a b c : string) : (a ++ b) ++ c = a ++ b ++ c.
Proof. induction a as [| x a IH]; simpl; [reflexivity | rewrite IH; reflexivity]. Qed.

Lemma cut_at_semicolon (s t rest rest' : string) :
  no_semicolon s = true -> no_semicolon t = true ->
  s ++ String ";" rest = t ++ String ";" rest' -> s = t /\ rest = rest'.
Proof.
  revert t. induction s as [| c s IH]; intros [| d t] Hs Ht Heq; simpl in *.
  - injection Heq as Heq. split; [reflexivity | exact Heq].
  - injection Heq as Hc _. subst d. discriminate.
  - injection Heq as Hc _. subst c. discriminate.
  - injection Heq as Hc Hrest. subst d.
    apply andb_prop in Hs as [_ Hs]. apply andb_prop in Ht as [_ Ht].
    destruct (IH t Hs Ht Hrest) as [-> ->]. split; reflexivity.
Qed.

Lemma no_semicolon_app (a b : string) :
  no_semicolon (a ++ b) = no_semicolon a && no_semicolon b.
Proof. apply forallb_app. Qed.

Lemma no_semicolon_rev (a : string) : no_semicolon (Str.rev a) = no_semicolon a.
Proof. apply forallb_rev. Qed.

Lemma no_semicolon_digits (d : Decimal.uint) :
  no_semicolon (NilEmpty.string_of_uint d) = true.
Proof. induction d; simpl; auto. Qed.

Lemma no_semicolon_of_Z (z : Z) : no_semicolon (Str.of_Z z) = true.
Proof.
  unfold Str.of_Z, NilZero.string_of_int, NilZero.string_of_uint.
  destruct (Z.to_int z) as [d | d]; destruct d;
    first [reflexivity | apply (no_semicolon_digits (_ d))
          | exact (no_semicolon_digits _) | simpl; apply no_semicolon_digits ].
Qed.

Lemma no_semicolon_pad (w : nat) (s : string) :
  no_semicolon s = true -> no_semicolon (Str.pad_left w s) = true.
Proof.
  intros Hs. induction w as [| w IH]; cbn [Str.pad_left];
    destruct (Nat.leb _ (String.length s)); try exact Hs.
  simpl. exact IH.
Qed.

Lemma no_semicolon_nth (n : nat) (l : list string) :
  (forall x, In x l -> no_semicolon x = true) -> no_semicolon (nth n l "") = true.
Proof.
  intros Hall. destruct (nth_in_or_default n l "") as [Hin | ->]; [apply Hall, Hin | reflexivity].
Qed.

(** The text of a date has no semicolon in it. *)
Lemma no_semicolon_toUTCString (tv : option Z) : no_semicolon (JSDate.toUTCString tv) = true.
Proof.
  destruct tv as [t |]; [| reflexivity].
  unfold JSDate.toUTCString, JSDate.year_text, JSDate.day_name, JSDate.month_name, Str.padded.
  rewrite !no_semicolon_app.
  rewrite !no_semicolon_pad by apply no_semicolon_of_Z.
  rewrite !no_semicolon_nth
    by (intros x Hx; simpl in Hx;
        repeat (destruct Hx as [<- | Hx]; [reflexivity |]); contradiction).
  destruct (_ <? 0)%Z; reflexivity.
Qed.

(** The text before the attributes of a directive is determined by the
    directive, whatever that text is. *)
Lemma directive_determines_text (t t' d d' : string) :
  no_semicolon d = true -> no_semicolon d' = true ->
  t ++ "; path=/; expires=" ++ d = t' ++ "; path=/; expires=" ++ d' -> t = t'.
Proof.
  intros Hd Hd' Heq. apply (f_equal Str.rev) in Heq.
  rewrite !rev_app in Heq. cbn [Str.rev append] in Heq.
  assert (Hshape : forall x y : string,
            (Str.rev x ++ "=seripxe ;/=htap ;") ++ Str.rev y
            = (Str.rev x ++ "=seripxe ") ++ String ";" ("/=htap ;" ++ Str.rev y))
    by (intros x y; rewrite !app_assoc_string; reflexivity).
  rewrite !Hshape in Heq.
  apply cut_at_semicolon in Heq as [_ Hrest].
  - simpl in Hrest. injection Hrest as Hrest.
    rewrite <- (rev_involutive t), <- (rev_involutive t'), Hrest. reflexivity.
  - rewrite no_semicolon_app, no_semicolon_rev, Hd. reflexivity.
  - rewrite no_semicolon_app, no_semicolon_rev, Hd'. reflexivity.
Qed.

(** C9, as the code has it: what is read back from a request that carries
    the directive of a token is the whole directive, name and attributes
    included, and not the bare token; but the directive determines the
    token.  For every two tokens, expiries and runtimes, if the strings read
    back from the requests that carry the two directives are equal, then so
    are the texts of the two tokens. *)
Theorem cookie_read_back_verbatim
    (rt rt' : Runtime) (request request' : Request)
    (token token' expires expires' : JSValue) (t t' directive directive' : string) :
  ToString token = Some t ->
  ToString token' = Some t' ->
  session_cookie_literal rt token expires = Some directive ->
  session_cookie_literal rt' token' expires' = Some directive' ->
  Cookie request = Some directive ->
  Cookie request' = Some directive' ->
  cookie_header request
    = "payload-token=" ++ t ++ "; path=/; expires="
      ++ JSDate.toUTCString (JSDate.construct (Date_parse rt) expires)
  /\ (cookie_header request = cookie_header request' -> t = t').
Proof.
  intros Ht Ht' Hd Hd' Hc Hc'.
  apply session_cookie_literal_inv in Hd as (x & Hx & _ & ->).
  apply session_cookie_literal_inv in Hd' as (x' & Hx' & _ & ->).
  assert (x = t) by congruence. assert (x' = t') by congruence. subst x x'.
  unfold cookie_header. rewrite Hc, Hc'. split; [reflexivity |].
  intros Heq. simpl in Heq. injection Heq as Heq.
  exact (directive_determines_text t t' _ _ (no_semicolon_toUTCString _)
                                   (no_semicolon_toUTCString _) Heq).
Qed.

Lemma cookie_read_back_verbatim_witness :
  cookie_header (with_cookie "payload-token=a; b=c; path=/; expires=Tue, 14 Nov 2023 22:13:20 GMT")
    = "payload-token=a; b=c; path=/; expires=Tue, 14 Nov 2023 22:13:20 GMT"
  /\ (cookie_header
        (with_cookie "payload-token=a; b=c; path=/; expires=Tue, 14 Nov 2023 22:13:20 GMT")
      = cookie_header
          (with_cookie "payload-token=tok123; path=/; expires=Thu, 01 Jan 1970 00:00:00 GMT")
      -> "a; b=c" = "tok123").
Proof.
  exact (cookie_read_back_verbatim (scripted []) (scripted [])
           (with_cookie "payload-token=a; b=c; path=/; expires=Tue, 14 Nov 2023 22:13:20 GMT")
           (with_cookie "payload-token=tok123; path=/; expires=Thu, 01 Jan 1970 00:00:00 GMT")
           (JStr "a; b=c") (JStr "tok123") (JNum 1700000000000) (JNum 0)
           "a; b=c" "tok123" _ _ eq_refl eq_refl eq_refl eq_refl eq_refl eq_refl).
Defined.

(** C9, as stated, fails: the string read back from a request that carries
    the directive is not the token, and neither is the one read back from
    a request that carries the pair of name and value alone. *)
Lemma cookie_read_back_is_not_the_token :
  let directive := session_cookie (scripted []) (JStr "tok123") (JNum 0) in
  directive = "payload-token=tok123; path=/; expires=Thu, 01 Jan 1970 00:00:00 GMT"
  /\ cookie_header (with_cookie directive) <> "tok123"
  /\ cookie_header (with_cookie "payload-token=tok123") <> "tok123".
Proof. split; [reflexivity | split; vm_compute; discriminate]. Qed.

(** * Further properties *)

(** ** Trimming *)

Lemma starts_clean_drop_while s : starts_clean (Str.drop_while Str.is_space s) = true.
Proof.
  induction s as [| c s IH]; simpl; [reflexivity |].
  destruct (Str.is_space c) eqn:Hc; [exact IH | simpl; rewrite Hc; reflexivity].
Qed.

Lemma drop_while_clean s : starts_clean s = true -> Str.drop_while Str.is_space s = s.
Proof.
  destruct s as [| c s]; simpl; [reflexivity |].
  destruct (Str.is_space c); [discriminate | reflexivity].
Qed.

Lemma drop_while_app_stop u c v :
  Str.is_space c = false ->
  Str.drop_while Str.is_space (u ++ String c v) = Str.drop_while Str.is_space u ++ String c v.
Proof.
  intros Hc. induction u as [| d u IH]; simpl.
  - rewrite Hc. reflexivity.
  - destruct (Str.is_space d); [exact IH | reflexivity].
Qed.

Lemma trim_clean s : starts_clean s = true -> starts_clean (Str.rev s) = true -> Str.trim s = s.
Proof.
  intros Hs Hr. unfold Str.trim.
  rewrite (drop_while_clean s Hs), (drop_while_clean _ Hr). apply rev_involutive.
Qed.

Lemma trim_starts_clean s : starts_clean (Str.trim s) = true.
Proof.
  unfold Str.trim. pose proof (starts_clean_drop_while s) as Hs.
  destruct (Str.drop_while Str.is_space s) as [| c t]; [reflexivity |].
  simpl in Hs. apply negb_true_iff in Hs. simpl Str.rev.
  rewrite (drop_while_app_stop _ c "" Hs), rev_app. simpl. rewrite Hs. reflexivity.
Qed.

Lemma trim_ends_clean s : starts_clean (Str.rev (Str.trim s)) = true.
Proof. unfold Str.trim. rewrite rev_involutive. apply starts_clean_drop_while. Qed.

(** ** The schemas *)

Lemma z_string_email_spec v e :
  z_string [Zod.email; Zod.trim] v = Some e <-> v = Some (FString e) /\ Zod.emailRegex e = true.
Proof.
  unfold z_string. destruct v as [[s | f] |]; simpl.
  - destruct (Zod.emailRegex s) eqn:Hs; simpl.
    + rewrite (emailRegex_trimmed s Hs). split.
      * intros H. injection H as <-. split; [reflexivity | exact Hs].
      * intros [H _]. injection H as <-. reflexivity.
    + split; [discriminate |]. intros [H He]. injection H as <-. congruence.
  - split; [discriminate | intros [H _]; discriminate].
  - split; [discriminate | intros [H _]; discriminate].
Qed.

Lemma z_string_min_spec n v p :
  z_string [Zod.min n] v = Some p <-> v = Some (FString p) /\ (n <= String.length p)%nat.
Proof.
  unfold z_string. destruct v as [[s | f] |]; simpl.
  - destruct (Nat.leb_spec n (String.length s)) as [Hle | Hgt]; simpl.
    + split.
      * intros H. injection H as <-. split; [reflexivity | exact Hle].
      * intros [H _]. injection H as <-. reflexivity.
    + split; [discriminate |]. intros [H Hp]. injection H as <-. lia.
  - split; [discriminate | intros [H _]; discriminate].
  - split; [discriminate | intros [H _]; discriminate].
Qed.

Lemma z_string_name_spec v x :
  z_string [Zod.min 1; Zod.trim] v = Some x
  <-> exists s, v = Some (FString s) /\ (1 <= String.length s)%nat /\ x = Str.trim s.
Proof.
  unfold z_string. destruct v as [[s | f] |]; cbn -[Nat.leb Str.trim].
  - destruct (Nat.leb_spec 1 (String.length s)) as [Hle | Hgt]; simpl.
    + split.
      * intros H. injection H as <-. exists s. repeat split. exact Hle.
      * intros (s' & H & _ & ->). injection H as <-. reflexivity.
    + split; [discriminate |]. intros (s' & H & Hp & _). injection H as <-. lia.
  - split; [discriminate | intros (s' & H & _); discriminate].
  - split; [discriminate | intros (s' & H & _); discriminate].
Qed.

Lemma LoginSchema_sound (input : list (string * FormDataEntryValue)) (data : Credentials) :
  Login.LoginSchema input = Some data ->
  assoc "email" input = Some (FString (email data))
  /\ assoc "password" input = Some (FString (password data))
  /\ Zod.emailRegex (email data) = true
  /\ (6 <= String.length (password data))%nat.
Proof.
  unfold Login.LoginSchema.
  destruct (z_string _ (assoc "email" input)) as [e |] eqn:He; [| discriminate].
  destruct (z_string _ (assoc "password" input)) as [p |] eqn:Hp; [| discriminate].
  intros H. injection H as <-. simpl.
  apply z_string_email_spec in He as [He1 He2]. apply z_string_min_spec in Hp as [Hp1 Hp2].
  auto.
Qed.

Lemma RegisterSchema_sound
    (input : list (string * FormDataEntryValue)) (parsed : Register.Registration) :
  Register.RegisterSchema input = Some parsed ->
  exists f l,
    assoc "email" input = Some (FString (Register.email parsed))
    /\ assoc "password" input = Some (FString (Register.password parsed))
    /\ assoc "firstName" input = Some (FString f)
    /\ assoc "lastName" input = Some (FString l)
    /\ Zod.emailRegex (Register.email parsed) = true
    /\ (6 <= String.length (Register.password parsed))%nat
    /\ (1 <= String.length f)%nat /\ (1 <= String.length l)%nat
    /\ Register.firstName parsed = Str.trim f
    /\ Register.lastName parsed = Str.trim l.
Proof.
  unfold Register.RegisterSchema.
  destruct (z_string _ (assoc "email" input)) as [e |] eqn:He; [| discriminate].
  destruct (z_string _ (assoc "password" input)) as [p |] eqn:Hp; [| discriminate].
  destruct (z_string _ (assoc "firstName" input)) as [f |] eqn:Hf; [| discriminate].
  destruct (z_string _ (assoc "lastName" input)) as [l |] eqn:Hl; [| discriminate].
  intros H. injection H as <-. simpl.
  apply z_string_email_spec in He as [He1 He2]. apply z_string_min_spec in Hp as [Hp1 Hp2].
  apply z_string_name_spec in Hf as (f0 & Hf1 & Hf2 & ->).
  apply z_string_name_spec in Hl as (l0 & Hl1 & Hl2 & ->).
  exists f0, l0. repeat split; assumption.
Qed.

(** X1: the login schema accepts an object exactly when its [email] is a
    string that matches the address pattern and its [password] is a string of
    at least six code units; the credentials it yields are those two strings,
    unchanged. *)
Theorem LoginSchema_accepts_iff (input : list (string * FormDataEntryValue)) (data : Credentials) :
  Login.LoginSchema input = Some data
  <-> assoc "email" input = Some (FString (email data))
      /\ assoc "password" input = Some (FString (password data))
      /\ Zod.emailRegex (email data) = true
      /\ (6 <= String.length (password data))%nat.
Proof.
  split.
  - apply LoginSchema_sound.
  - unfold Login.LoginSchema.
    intros (He & Hp & Hre & Hlen). destruct data as [e p]. simpl in *.
    rewrite (proj2 (z_string_email_spec _ e) (conj He Hre)).
    rewrite (proj2 (z_string_min_spec 6 _ p) (conj Hp Hlen)). reflexivity.
Qed.

(** X2: the register schema accepts an object exactly when [email] and
    [password] are as for a login and [firstName] and [lastName] are strings
    that are not empty as submitted; it yields the address and the password
    unchanged and the two names trimmed. *)
Theorem RegisterSchema_accepts_iff
    (input : list (string * FormDataEntryValue)) (parsed : Register.Registration) :
  Register.RegisterSchema input = Some parsed
  <-> exists f l,
        assoc "email" input = Some (FString (Register.email parsed))
        /\ assoc "password" input = Some (FString (Register.password parsed))
        /\ assoc "firstName" input = Some (FString f)
        /\ assoc "lastName" input = Some (FString l)
        /\ Zod.emailRegex (Register.email parsed) = true
        /\ (6 <= String.length (Register.password parsed))%nat
        /\ (1 <= String.length f)%nat /\ (1 <= String.length l)%nat
        /\ Register.firstName parsed = Str.trim f
        /\ Register.lastName parsed = Str.trim l.
Proof.
  split.
  - apply RegisterSchema_sound.
  - unfold Register.RegisterSchema.
    intros (f & l & He & Hp & Hf & Hl & Hre & Hlen & Hflen & Hllen & Hfn & Hln).
    destruct parsed as [e p fn ln]. simpl in *. subst fn ln.
    rewrite (proj2 (z_string_email_spec _ e) (conj He Hre)).
    rewrite (proj2 (z_string_min_spec 6 _ p) (conj Hp Hlen)).
    rewrite (proj2 (z_string_name_spec _ (Str.trim f))
               (ex_intro _ f (conj Hf (conj Hflen eq_refl)))).
    rewrite (proj2 (z_string_name_spec _ (Str.trim l))
               (ex_intro _ l (conj Hl (conj Hllen eq_refl)))).
    reflexivity.
Qed.

(** X3: whatever the register schema accepts, the address it yields contains
    no white space at all, and neither name begins or ends with white space
    (a name may be empty). *)
Theorem RegisterSchema_output_clean
    (input : list (string * FormDataEntryValue)) (parsed : Register.Registration) :
  Register.RegisterSchema input = Some parsed ->
  Str.forallb (fun c => negb (Str.is_space c)) (Register.email parsed) = true
  /\ starts_clean (Register.firstName parsed) = true
  /\ starts_clean (Str.rev (Register.firstName parsed)) = true
  /\ starts_clean (Register.lastName parsed) = true
  /\ starts_clean (Str.rev (Register.lastName parsed)) = true.
Proof.
  intros H. apply RegisterSchema_sound in H
    as (f & l & _ & _ & _ & _ & Hre & _ & _ & _ & -> & ->).
  split.
  - unfold Zod.emailRegex in Hre. apply andb_prop in Hre as [_ Hre].
    apply (forallb_weaken (alphabet Zod.email_body)); [apply email_alphabet_no_space |].
    apply matches_alphabet, Hre.
  - repeat split; first [apply trim_starts_clean | apply trim_ends_clean].
Qed.

Lemma RegisterSchema_output_clean_witness :
  let parsed := {| Register.email := "ann@example.org"; Register.password := "secret1";
                   Register.firstName := "Ann Mary"; Register.lastName := "" |} in
  Str.forallb (fun c => negb (Str.is_space c)) (Register.email parsed) = true
  /\ starts_clean (Register.firstName parsed) = true
  /\ starts_clean (Str.rev (Register.firstName parsed)) = true
  /\ starts_clean (Register.lastName parsed) = true
  /\ starts_clean (Str.rev (Register.lastName parsed)) = true.
Proof.
  intros parsed.
  apply (RegisterSchema_output_clean
           [("email", FString "ann@example.org"); ("password", FString "secret1");
            ("firstName", FString "  Ann Mary "); ("lastName", FString " ")] parsed).
  vm_compute. reflexivity.
Defined.

(** ** What the actions send and when they redirect *)

(** X4: whatever the backend does, the login action makes no call or exactly
    one, a login whose address matches the pattern and whose password has at
    least six code units: no unvalidated credentials reach the backend. *)
Theorem login_action_sends_validated_credentials
    (rt : Runtime) (request : Request) (calls : list Call) (c : Completion RouteResult) :
  run (Login.action request) rt = (calls, c) ->
  calls = []
  \/ exists data,
       calls = [POST_users_login data]
       /\ Zod.emailRegex (email data) = true
       /\ (6 <= String.length (password data))%nat.
Proof.
  step_route. destruct (body request) as [entries | m].
  - cbv beta iota.
    destruct (Login.LoginSchema (Object_fromEntries entries)) as [data |] eqn:Hdata.
    + apply LoginSchema_sound in Hdata as (_ & _ & Hre & Hlen).
      intros H. right. exists data. split; [| split; assumption].
      destruct (backend rt [] (POST_users_login data)) as [json | m | m]; cbv beta iota in H;
        [ destruct (truthy (prop json "errors"));
          [| destruct (truthy (prop json "user"));
             [destruct (session_cookie_literal rt _ _) |]] | | ];
        injection H as <- _; reflexivity.
    + intros H. injection H as <- _. left. reflexivity.
  - intros H. injection H as <- _. left. reflexivity.
Qed.

Lemma login_action_sends_validated_credentials_witness :
  [POST_users_login {| email := "ann@example.org"; password := "secret1" |}] = []
  \/ exists data,
       [POST_users_login {| email := "ann@example.org"; password := "secret1" |}]
         = [POST_users_login data]
       /\ Zod.emailRegex (email data) = true
       /\ (6 <= String.length (password data))%nat.
Proof.
  apply (login_action_sends_validated_credentials
           (scripted [Body (JObj [("errors", JArr [JObj [("message", JStr "Locked")]])])])
           (submission [("email", "ann@example.org"); ("password", "secret1")])
           _ (Normal (error_data (JStr "Locked")))).
  vm_compute. reflexivity.
Defined.

(** X5: whatever the backend does, the register action makes no call, or the
    account creation alone, or the creation followed by one login; the
    creation carries a validated address and password, and the login carries
    the same address and password as the creation. *)
Theorem register_action_sends_validated_fields
    (rt : Runtime) (request : Request) (calls : list Call) (c : Completion RouteResult) :
  run (Register.action request) rt = (calls, c) ->
  calls = []
  \/ exists parsed,
       let create := POST_users (Register.email parsed) (Register.password parsed)
                                (Register.firstName parsed) (Register.lastName parsed) in
       let login := POST_users_login
                      (Build_Credentials (Register.email parsed) (Register.password parsed)) in
       (calls = [create] \/ calls = [create; login])
       /\ Zod.emailRegex (Register.email parsed) = true
       /\ (6 <= String.length (Register.password parsed))%nat.
Proof.
  step_route. destruct (body request) as [entries | m].
  - cbv beta iota.
    destruct (Register.RegisterSchema (Object_fromEntries entries)) as [parsed |] eqn:Hparsed.
    + apply RegisterSchema_sound in Hparsed as (f & l & _ & _ & _ & _ & Hre & Hlen & _).
      intros H. right. exists parsed. cbv zeta. split; [| split; assumption].
      destruct (backend rt [] _) as [created | m | m]; cbv beta iota in H.
      * destruct (truthy (prop created "errors")).
        -- injection H as <- _. left. reflexivity.
        -- simpl app in H.
           destruct (backend rt _ _) as [json | m | m]; cbv beta iota in H;
             [ destruct (truthy (prop json "errors"));
               [| destruct (truthy (prop json "user"));
                  [destruct (session_cookie_literal rt _ _) |]]
             | | ];
             injection H as <- _; right; reflexivity.
      * injection H as <- _. left. reflexivity.
      * injection H as <- _. left. reflexivity.
    + intros H. injection H as <- _. left. reflexivity.
  - intros H. injection H as <- _. left. reflexivity.
Qed.

Lemma register_action_sends_validated_fields_witness :
  exists calls c,
    run (Register.action
           (submission [("email", "ann@example.org"); ("password", "secret1");
                        ("firstName", "Ann"); ("lastName", "Lee")]))
        (scripted [Body (JObj [("doc", JObj [("id", JNum 7)])]); NetworkError "fetch failed"])
      = (calls, c)
    /\ (calls = []
        \/ exists parsed,
             (calls = [POST_users (Register.email parsed) (Register.password parsed)
                                  (Register.firstName parsed) (Register.lastName parsed)]
              \/ calls = [POST_users (Register.email parsed) (Register.password parsed)
                                     (Register.firstName parsed) (Register.lastName parsed);
                          POST_users_login
                            (Build_Credentials (Register.email parsed)
                                               (Register.password parsed))])
             /\ Zod.emailRegex (Register.email parsed) = true
             /\ (6 <= String.length (Register.password parsed))%nat).
Proof.
  eexists. eexists. split.
  - vm_compute. reflexivity.
  - apply (register_action_sends_validated_fields
             (scripted [Body (JObj [("doc", JObj [("id", JNum 7)])]); NetworkError "fetch failed"])
             (submission [("email", "ann@example.org"); ("password", "secret1");
                          ("firstName", "Ann"); ("lastName", "Lee")])
             _ (Normal (error_data (JStr "fetch failed")))).
    vm_compute. reflexivity.
Defined.

(** X6: the login action redirects only after a login that the backend
    answered with a user and without [errors], and with a token and an expiry
    that have a text; the redirect then goes to the home page and carries
    exactly one header, the cookie [payload-token] with the text of that
    token, path [/] and the UTC text of that expiry.  In every other case no
    cookie is set. *)
Theorem login_action_redirects_only_on_success
    (rt : Runtime) (request : Request) (calls : list Call)
    (url : string) (headers : list (string * string)) :
  run (Login.action request) rt = (calls, Normal (redirect url headers)) ->
  exists data json t,
    calls = [POST_users_login data]
    /\ backend rt [] (POST_users_login data) = Body json
    /\ truthy (prop json "errors") = false
    /\ truthy (prop json "user") = true
    /\ ToString (prop json "token") = Some t
    /\ ToString (prop json "expires") <> None
    /\ url = "/"
    /\ headers = [("Set-Cookie",
                   "payload-token=" ++ t ++ "; path=/; expires="
                   ++ JSDate.toUTCString
                        (JSDate.construct (Date_parse rt) (prop json "expires")))].
Proof.
  step_route. destruct (body request) as [entries | m]; [| discriminate].
  cbv beta iota.
  destruct (Login.LoginSchema (Object_fromEntries entries)) as [data |]; [| discriminate].
  destruct (backend rt [] (POST_users_login data)) as [json | m | m] eqn:Hout;
    cbv beta iota; [| discriminate | discriminate].
  destruct (truthy (prop json "errors")) eqn:Herr; [discriminate |].
  destruct (truthy (prop json "user")) eqn:Huser; [| discriminate].
  destruct (session_cookie_literal rt _ _) as [directive |] eqn:Hlit; [| discriminate].
  apply session_cookie_literal_inv in Hlit as (t & Ht & He & ->).
  intros H. injection H as <- <- <-. exists data, json, t. repeat split; assumption.
Qed.

Lemma login_action_redirects_only_on_success_witness :
  let rt := scripted [Body (JObj [("user", JObj [("id", JNum 7)]); ("token", JStr "tok123");
                                  ("expires", JNum 1700000000000)])] in
  exists data json t,
    [POST_users_login {| email := "ann@example.org"; password := "secret1" |}]
      = [POST_users_login data]
    /\ backend rt [] (POST_users_login data) = Body json
    /\ truthy (prop json "errors") = false
    /\ truthy (prop json "user") = true
    /\ ToString (prop json "token") = Some t
    /\ ToString (prop json "expires") <> None
    /\ "/" = "/"
    /\ [("Set-Cookie", "payload-token=tok123; path=/; expires=Tue, 14 Nov 2023 22:13:20 GMT")]
       = [("Set-Cookie",
           "payload-token=" ++ t ++ "; path=/; expires="
           ++ JSDate.toUTCString (JSDate.construct (Date_parse rt) (prop json "expires")))].
Proof.
  intros rt.
  apply (login_action_redirects_only_on_success rt
           (submission [("email", "ann@example.org"); ("password", "secret1")])).
  vm_compute. reflexivity.
Defined.

(** X7: the register action redirects only after the account creation was
    answered without [errors] and the login that followed was answered with a
    user and without [errors], and with a token and an expiry that have a
    text; the redirect goes to the home page, and its only header is the
    cookie [payload-token] with the text of that token, path [/] and the UTC
    text of that expiry. *)
Theorem register_action_redirects_only_on_success
    (rt : Runtime) (request : Request) (calls : list Call)
    (url : string) (headers : list (string * string)) :
  run (Register.action request) rt = (calls, Normal (redirect url headers)) ->
  exists parsed created json t,
    let create := POST_users (Register.email parsed) (Register.password parsed)
                             (Register.firstName parsed) (Register.lastName parsed) in
    let login := POST_users_login
                   (Build_Credentials (Register.email parsed) (Register.password parsed)) in
    calls = [create; login]
    /\ backend rt [] create = Body created
    /\ truthy (prop created "errors") = false
    /\ backend rt [create] login = Body json
    /\ truthy (prop json "errors") = false
    /\ truthy (prop json "user") = true
    /\ ToString (prop json "token") = Some t
    /\ ToString (prop json "expires") <> None
    /\ url = "/"
    /\ headers = [("Set-Cookie",
                   "payload-token=" ++ t ++ "; path=/; expires="
                   ++ JSDate.toUTCString
                        (JSDate.construct (Date_parse rt) (prop json "expires")))].
Proof.
  step_route. destruct (body request) as [entries | m]; [| discriminate].
  cbv beta iota.
  destruct (Register.RegisterSchema (Object_fromEntries entries)) as [parsed |]; [| discriminate].
  destruct (backend rt [] _) as [created | m | m] eqn:Hcreate;
    cbv beta iota; [| discriminate | discriminate].
  destruct (truthy (prop created "errors")) eqn:Hok; cbv beta iota; [discriminate |].
  simpl app.
  destruct (backend rt (_ :: _) _) as [json | m | m] eqn:Hlogin;
    cbv beta iota; [| discriminate | discriminate].
  destruct (truthy (prop json "errors")) eqn:Herr; cbv beta iota; [discriminate |].
  destruct (truthy (prop json "user")) eqn:Huser; cbv beta iota; [| discriminate].
  destruct (session_cookie_literal rt _ _) as [directive |] eqn:Hlit;
    cbv beta iota; [| discriminate].
  apply session_cookie_literal_inv in Hlit as (t & Ht & He & ->).
  intros H. injection H as <- <- <-. exists parsed, created, json, t. cbv zeta.
  repeat split; assumption.
Qed.

Lemma register_action_redirects_only_on_success_witness :
  let rt := scripted [Body (JObj [("doc", JObj [("id", JNum 7)])]);
                      Body (JObj [("user", JObj [("id", JNum 7)]); ("token", JStr "tok123");
                                  ("expires", JNum 1700000000000)])] in
  exists parsed created json t,
    [POST_users "ann@example.org" "secret1" "Ann" "Lee";
     POST_users_login {| email := "ann@example.org"; password := "secret1" |}]
      = [POST_users (Register.email parsed) (Register.password parsed)
                    (Register.firstName parsed) (Register.lastName parsed);
         POST_users_login
           (Build_Credentials (Register.email parsed) (Register.password parsed))]
    /\ truthy (prop created "errors") = false
    /\ truthy (prop json "user") = true
    /\ ToString (prop json "token") = Some t
    /\ [("Set-Cookie", "payload-token=tok123; path=/; expires=Tue, 14 Nov 2023 22:13:20 GMT")]
       = [("Set-Cookie",
           "payload-token=" ++ t ++ "; path=/; expires="
           ++ JSDate.toUTCString (JSDate.construct (Date_parse rt) (prop json "expires")))].
Proof.
  intros rt.
  destruct (register_action_redirects_only_on_success rt
              (submission [("email", "ann@example.org"); ("password", "secret1");
                           ("firstName", "Ann"); ("lastName", "Lee")])
              [POST_users "ann@example.org" "secret1" "Ann" "Lee";
               POST_users_login {| email := "ann@example.org"; password := "secret1" |}]
              "/"
              [("Set-Cookie", "payload-token=tok123; path=/; expires=Tue, 14 Nov 2023 22:13:20 GMT")]
              eq_refl)
    as (parsed & created & json & t & Hcalls & _ & Hok & _ & _ & Huser & Ht & _ & _ & Hh).
  exists parsed, created, json, t. repeat split; assumption.
Defined.

(** X8: a valid login that the backend answers with a structured failure
    returns [{error: m}] with the first message of the answer, after that one
    call and without any cookie. *)
Theorem rejected_login_returns_backend_message
    (rt : Runtime) (request : Request)
    (entries : list (string * FormDataEntryValue)) (data : Credentials)
    (json : JSValue) (m : string) :
  body request = Form entries ->
  Login.LoginSchema (Object_fromEntries entries) = Some data ->
  backend rt [] (POST_users_login data) = Body json ->
  structured_failure json m ->
  run (Login.action request) rt = ([POST_users_login data], Normal (error_data (JStr m)))
  /\ set_cookie (error_data (JStr m)) = None.
Proof.
  intros Hbody Hdata Hout Hfail. split; [| reflexivity].
  step_route. rewrite Hbody. cbv beta iota. rewrite Hdata, Hout. cbv beta iota.
  rewrite (structured_failure_truthy _ _ Hfail), (structured_failure_message _ _ Hfail).
  reflexivity.
Qed.

Lemma rejected_login_returns_backend_message_witness :
  run (Login.action (submission [("email", "ann@example.org"); ("password", "secret1")]))
      (scripted [Body (JObj [("errors",
                              JArr [JObj [("message", JStr "The email or password provided is incorrect.")]])])])
    = ([POST_users_login {| email := "ann@example.org"; password := "secret1" |}],
       Normal (error_data (JStr "The email or password provided is incorrect."))).
Proof.
  refine (proj1 (rejected_login_returns_backend_message
            (scripted [Body (JObj [("errors",
                                    JArr [JObj [("message", JStr "The email or password provided is incorrect.")]])])])
            (submission [("email", "ann@example.org"); ("password", "secret1")])
            _ {| email := "ann@example.org"; password := "secret1" |}
            _ "The email or password provided is incorrect." eq_refl eq_refl eq_refl _)).
  exists (JObj [("message", JStr "The email or password provided is incorrect.")]), [].
  split; reflexivity.
Defined.

(** X9: whatever the backend does, the logout action makes exactly one call,
    the logout carrying the [Cookie] header of the request (the empty string
    when there is none); when it redirects, it redirects to [/login] with the
    clearing cookie as its only header, and the backend had answered without
    [errors]. *)
Theorem logout_action_shape
    (rt : Runtime) (request : Request) (calls : list Call) (c : Completion RouteResult) :
  run (Home.action request) rt = (calls, c) ->
  calls = [POST_users_logout (match Cookie request with Some h => h | None => "" end)]
  /\ (forall url headers,
        c = Normal (redirect url headers) ->
        url = "/login"
        /\ headers = [("Set-Cookie",
                       "payload-token=; path=/; expires=Thu, 01 Jan 1970 00:00:00 GMT")]
        /\ exists json,
             backend rt [] (POST_users_logout (cookie_header request)) = Body json
             /\ truthy (prop json "errors") = false).
Proof.
  step_route. fold (cookie_header request).
  destruct (backend rt [] _) as [json | m | m] eqn:Hout; cbv beta iota; simpl app.
  - destruct (truthy (prop json "errors")) eqn:Herr; intros H; injection H as <- <-;
      (split; [reflexivity |]); intros url headers Hc; [discriminate |].
    injection Hc as <- <-. repeat split. exists json. split; [reflexivity | exact Herr].
  - intros H. injection H as <- <-. split; [reflexivity |]. discriminate.
  - intros H. injection H as <- <-. split; [reflexivity |]. discriminate.
Qed.

Lemma logout_action_shape_witness :
  [POST_users_logout ""] = [POST_users_logout ""]
  /\ (forall url headers,
        Normal (redirect "/login"
                  [("Set-Cookie", "payload-token=; path=/; expires=Thu, 01 Jan 1970 00:00:00 GMT")])
          = Normal (redirect url headers) ->
        url = "/login"
        /\ headers = [("Set-Cookie",
                       "payload-token=; path=/; expires=Thu, 01 Jan 1970 00:00:00 GMT")]
        /\ exists json,
             backend (scripted [Body JNull]) []
                     (POST_users_logout (cookie_header (submission []))) = Body json
             /\ truthy (prop json "errors") = false).
Proof.
  apply (logout_action_shape (scripted [Body JNull]) (submission [])). reflexivity.
Defined.

(** ** The home loader *)

(** X10: for a request whose cookie resolves to a user, the home loader asks
    for the user listing with the same [Cookie] header as the identity
    request and returns the user together with the listing; a listing that
    is falsy ([null], [false], [0], the empty string) is replaced by the
    empty array. *)
Theorem home_loader_lists_users
    (rt : Runtime) (request : Request) (json users : JSValue) :
  backend rt [] (GET_users_me (cookie_header request)) = Body json ->
  truthy (prop json "user") = true ->
  backend rt [GET_users_me (cookie_header request)] (GET_users (cookie_header request))
    = Body users ->
  run (Home.loader request) rt
    = ([GET_users_me (cookie_header request); GET_users (cookie_header request)],
       Normal (home_data (prop json "user") (if truthy users then users else JArr [])))
  /\ (truthy users = false -> user_items (if truthy users then users else JArr []) = Some []).
Proof.
  intros Hme Huser Husers. split.
  - step_route. rewrite Hme. cbv beta iota. simpl app. rewrite Huser. cbn [negb]. cbv beta iota.
    rewrite Husers. reflexivity.
  - intros ->. reflexivity.
Qed.

Lemma home_loader_lists_users_witness :
  run (Home.loader (with_cookie "payload-token=abc"))
      (scripted [Body (JObj [("user", JObj [("id", JNum 7)])]); Body JNull])
    = ([GET_users_me "payload-token=abc"; GET_users "payload-token=abc"],
       Normal (home_data (JObj [("id", JNum 7)]) (JArr []))).
Proof.
  exact (proj1 (home_loader_lists_users
                  (scripted [Body (JObj [("user", JObj [("id", JNum 7)])]); Body JNull])
                  (with_cookie "payload-token=abc")
                  (JObj [("user", JObj [("id", JNum 7)])]) JNull eq_refl eq_refl eq_refl)).
Defined.

(** X11: whenever the home loader returns page data, the user in it is
    truthy and so is the listing, and the loader made exactly the identity
    request and the listing request, in that order. *)
Theorem home_data_has_user
    (rt : Runtime) (request : Request) (calls : list Call) (user allUsers : JSValue) :
  run (Home.loader request) rt = (calls, Normal (home_data user allUsers)) ->
  truthy user = true /\ truthy allUsers = true
  /\ calls = [GET_users_me (cookie_header request); GET_users (cookie_header request)].
Proof.
  step_route. fold (cookie_header request).
  destruct (backend rt [] _) as [json | m | m]; cbv beta iota; simpl app;
    [| discriminate | discriminate].
  destruct (truthy (prop json "user")) eqn:Huser; cbn [negb]; cbv beta iota; [| discriminate].
  destruct (backend rt (_ :: _) _) as [users | m | m]; cbv beta iota; simpl app;
    [| discriminate | discriminate].
  intros H. injection H as <- <- <-. split; [exact Huser |]. split; [| reflexivity].
  destruct (truthy users) eqn:Hu; [exact Hu | reflexivity].
Qed.

Lemma home_data_has_user_witness :
  truthy (JObj [("id", JNum 7)]) = true /\ truthy (JArr []) = true
  /\ [GET_users_me "payload-token=abc"; GET_users "payload-token=abc"]
     = [GET_users_me (cookie_header (with_cookie "payload-token=abc"));
        GET_users (cookie_header (with_cookie "payload-token=abc"))].
Proof.
  apply (home_data_has_user
           (scripted [Body (JObj [("user", JObj [("id", JNum 7)])]); Body JNull])
           (with_cookie "payload-token=abc")).
  reflexivity.
Defined.

(** X12: the guards of the pages are complementary.  For one and the same
    answer to the identity request, either the login and register loaders
    redirect to the home page and the home loader does not redirect, or the
    home loader redirects to [/login] and the login and register loaders
    return the data of the form: following a redirect never meets another
    redirect. *)
Theorem guards_are_complementary (rt : Runtime) (request : Request) (json : JSValue) :
  backend rt [] (GET_users_me (cookie_header request)) = Body json ->
  (truthy (prop json "user") = true
   /\ snd (run (Login.loader request) rt) = Normal (redirect "/" [])
   /\ snd (run (Register.loader request) rt) = Normal (redirect "/" [])
   /\ forall url headers,
        snd (run (Home.loader request) rt) <> Normal (redirect url headers))
  \/ (truthy (prop json "user") = false
      /\ snd (run (Home.loader request) rt) = Normal (redirect "/login" [])
      /\ snd (run (Login.loader request) rt) = Normal form_data
      /\ snd (run (Register.loader request) rt) = Normal form_data).
Proof.
  intros Hme. destruct (truthy (prop json "user")) eqn:Huser; [left | right];
    (split; [reflexivity |]); step_route; rewrite Hme; cbv beta iota; rewrite Huser;
    cbn [negb]; cbv beta iota; repeat split.
  intros url headers. destruct (backend rt (_ ++ _) _); cbv beta iota; simpl; discriminate.
Qed.

Lemma guards_are_complementary_witness :
  let rt := scripted [Body (JObj [("user", JNull)])] in
  let request := with_cookie "payload-token=stale" in
  snd (run (Home.loader request) rt) = Normal (redirect "/login" [])
  /\ snd (run (Login.loader request) rt) = Normal form_data.
Proof.
  intros rt request.
  destruct (guards_are_complementary rt request (JObj [("user", JNull)]) eq_refl)
    as [(Huser & _) | (_ & Hhome & Hlogin & _)].
  - discriminate Huser.
  - split; assumption.
Defined.

(** ** Error messages and what the form shows *)

(** X13: every error that the register action returns is a string, and the
    form displays it unless it is the empty string. *)
Theorem register_error_is_text
    (rt : Runtime) (request : Request) (calls : list Call) (e : JSValue) :
  run (Register.action request) rt = (calls, Normal (error_data e)) ->
  exists s, e = JStr s
            /\ (error_banner (error_data e) = None <-> s = "").
Proof.
  assert (Hbanner : forall s, error_banner (error_data (JStr s)) = None <-> s = "").
  { intros s. unfold error_banner, truthy.
    destruct (String.eqb_spec s ""); simpl; split; intros H; congruence. }
  step_route. destruct (body request) as [entries | m].
  - cbv beta iota.
    destruct (Register.RegisterSchema (Object_fromEntries entries)) as [parsed |].
    + destruct (backend rt [] _) as [created | m | m]; cbv beta iota.
      * destruct (truthy (prop created "errors")); cbv beta iota.
        -- intros H. injection H as _ <-. eexists. split; [reflexivity | apply Hbanner].
        -- simpl app.
           destruct (backend rt (_ :: _) _) as [json | m | m]; cbv beta iota.
           ++ destruct (truthy (prop json "errors")); cbv beta iota.
              ** intros H. injection H as _ <-. eexists. split; [reflexivity | apply Hbanner].
              ** destruct (truthy (prop json "user")); cbv beta iota; [| discriminate].
                 destruct (session_cookie_literal rt _ _); cbv beta iota; [discriminate |].
                 intros H. injection H as _ <-. eexists. split; [reflexivity | apply Hbanner].
           ++ intros H. injection H as _ <-. eexists. split; [reflexivity | apply Hbanner].
           ++ intros H. injection H as _ <-. eexists. split; [reflexivity | apply Hbanner].
      * intros H. injection H as _ <-. eexists. split; [reflexivity | apply Hbanner].
      * intros H. injection H as _ <-. eexists. split; [reflexivity | apply Hbanner].
    + intros H. injection H as _ <-. eexists. split; [reflexivity | apply Hbanner].
  - intros H. injection H as _ <-. eexists. split; [reflexivity | apply Hbanner].
Qed.

Lemma register_error_is_text_witness :
  exists s, JStr "" = JStr s /\ (error_banner (error_data (JStr "")) = None <-> s = "").
Proof.
  apply (register_error_is_text
           (scripted [Body (JObj [("errors", JArr [])])])
           (submission [("email", "ann@example.org"); ("password", "secret1");
                        ("firstName", "Ann"); ("lastName", "Lee")])
           [POST_users "ann@example.org" "secret1" "Ann" "Lee"]).
  vm_compute. reflexivity.
Defined.

(** X14: a valid login whose answer has a truthy [errors] but no truthy
    message in its first error (an empty array, an error without [message],
    an empty message) returns that message as it is, and the login form
    displays nothing: the rejection is silent. *)
Theorem login_rejection_without_message_is_silent
    (rt : Runtime) (request : Request)
    (entries : list (string * FormDataEntryValue)) (data : Credentials) (json : JSValue) :
  body request = Form entries ->
  Login.LoginSchema (Object_fromEntries entries) = Some data ->
  backend rt [] (POST_users_login data) = Body json ->
  truthy (prop json "errors") = true ->
  truthy (prop (index0 (prop json "errors")) "message") = false ->
  exists r,
    run (Login.action request) rt = ([POST_users_login data], Normal r)
    /\ r = error_data (prop (index0 (prop json "errors")) "message")
    /\ error_banner r = None.
Proof.
  intros Hbody Hdata Hout Herr Hmsg. eexists. split; [| split; [reflexivity |]].
  - step_route. rewrite Hbody. cbv beta iota. rewrite Hdata, Hout. cbv beta iota.
    rewrite Herr. reflexivity.
  - unfold error_banner. rewrite Hmsg. reflexivity.
Qed.

Lemma login_rejection_without_message_is_silent_witness :
  exists r,
    run (Login.action (submission [("email", "ann@example.org"); ("password", "secret1")]))
        (scripted [Body (JObj [("errors", JArr [])])])
      = ([POST_users_login {| email := "ann@example.org"; password := "secret1" |}], Normal r)
    /\ r = error_data JUndefined
    /\ error_banner r = None.
Proof.
  apply (login_rejection_without_message_is_silent
           (scripted [Body (JObj [("errors", JArr [])])])
           (submission [("email", "ann@example.org"); ("password", "secret1")])
           _ {| email := "ann@example.org"; password := "secret1" |}
           (JObj [("errors", JArr [])]) eq_refl);
    reflexivity.
Defined.

(** ** The cookie of a login *)

(** X15: when the answer to a valid login has a user but neither a [token]
    nor an [expires] property, the login action still redirects and sets the
    cookie [payload-token=undefined] with the expiry text [Invalid Date]. *)
Theorem login_answer_without_token_sets_undefined_cookie
    (rt : Runtime) (request : Request)
    (entries : list (string * FormDataEntryValue)) (data : Credentials)
    (props : list (string * JSValue)) :
  body request = Form entries ->
  Login.LoginSchema (Object_fromEntries entries) = Some data ->
  backend rt [] (POST_users_login data) = Body (JObj props) ->
  truthy (prop (JObj props) "errors") = false ->
  truthy (prop (JObj props) "user") = true ->
  assoc "token" props = None ->
  assoc "expires" props = None ->
  run (Login.action request) rt
    = ([POST_users_login data],
       Normal (redirect "/"
                 [("Set-Cookie", "payload-token=undefined; path=/; expires=Invalid Date")])).
Proof.
  intros Hbody Hdata Hout Herr Huser Htoken Hexpires.
  step_route. rewrite Hbody. cbv beta iota. rewrite Hdata, Hout. cbv beta iota.
  rewrite Herr, Huser. unfold session_cookie, prop. rewrite Htoken, Hexpires. reflexivity.
Qed.

Lemma login_answer_without_token_sets_undefined_cookie_witness :
  run (Login.action (submission [("email", "ann@example.org"); ("password", "secret1")]))
      (scripted [Body (JObj [("user", JObj [("id", JNum 7)]); ("exp", JNum 1700000000)])])
    = ([POST_users_login {| email := "ann@example.org"; password := "secret1" |}],
       Normal (redirect "/"
                 [("Set-Cookie", "payload-token=undefined; path=/; expires=Invalid Date")])).
Proof.
  apply (login_answer_without_token_sets_undefined_cookie
           (scripted [Body (JObj [("user", JObj [("id", JNum 7)]); ("exp", JNum 1700000000)])])
           (submission [("email", "ann@example.org"); ("password", "secret1")])
           _ {| email := "ann@example.org"; password := "secret1" |}
           [("user", JObj [("id", JNum 7)]); ("exp", JNum 1700000000)] eq_refl);
    reflexivity.
Defined.

(** X16: the expiry of the session cookie has the resolution of a second: a
    numeric [expires] within the range of dates and the same instant cut to
    whole seconds give the same directive. *)
Theorem session_cookie_whole_seconds (rt : Runtime) (token : JSValue) (t : Z) :
  (Z.abs t <= 8640000000000000)%Z ->
  session_cookie rt token (JNum t) = session_cookie rt token (JNum (1000 * (t / 1000))).
Proof.
  intros Hrange. unfold session_cookie, JSDate.construct, JSDate.TimeClip.
  destruct (Z.leb_spec (Z.abs t) 8640000000000000) as [_ | Hgt]; [| lia].
  destruct (Z.leb_spec (Z.abs (1000 * (t / 1000))) 8640000000000000) as [_ | Hgt].
  - rewrite toUTCString_whole_seconds. reflexivity.
  - exfalso. revert Hrange Hgt. Z.to_euclidean_division_equations. lia.
Qed.

Lemma session_cookie_whole_seconds_witness :
  session_cookie (scripted []) (JStr "tok123") (JNum 1700000000999)
    = session_cookie (scripted []) (JStr "tok123") (JNum (1000 * (1700000000999 / 1000))).
Proof.
  apply (session_cookie_whole_seconds (scripted []) (JStr "tok123") 1700000000999). simpl. lia.
Defined.



(** ** Submissions that never reach the backend *)

(** X18: when the body of the request cannot be read as a form, the login
    action and the register action return the message of that failure as
    [{error: m}] and make no call. *)
Theorem unreadable_form_is_reported (rt : Runtime) (request : Request) (m : string) :
  body request = NotAForm m ->
  run (Login.action request) rt = ([], Normal (error_data (JStr m)))
  /\ run (Register.action request) rt = ([], Normal (error_data (JStr m))).
Proof. intros Hbody. split; step_route; rewrite Hbody; reflexivity. Qed.

Lemma unreadable_form_is_reported_witness :
  let request := {| Cookie := None; body := NotAForm "Could not parse content as FormData." |} in
  run (Login.action request) (scripted [])
    = ([], Normal (error_data (JStr "Could not parse content as FormData.")))
  /\ run (Register.action request) (scripted [])
    = ([], Normal (error_data (JStr "Could not parse content as FormData."))).
Proof.
  intros request.
  apply (unreadable_form_is_reported (scripted []) request
           "Could not parse content as FormData." eq_refl).
Defined.

(** X19: when the [email] of the submitted form is absent, is a file, or is
    a text that does not match the address pattern, the login action and the
    register action return [{error: "Invalid form data"}] and make no call. *)
Theorem invalid_email_rejected_offline
    (rt : Runtime) (request : Request) (entries : list (string * FormDataEntryValue)) :
  body request = Form entries ->
  (forall e, assoc "email" (Object_fromEntries entries) = Some (FString e) ->
             Zod.emailRegex e = false) ->
  run (Login.action request) rt = ([], Normal (error_data (JStr "Invalid form data")))
  /\ run (Register.action request) rt = ([], Normal (error_data (JStr "Invalid form data"))).
Proof.
  intros Hbody Hbad.
  assert (Hemail : z_string [Zod.email; Zod.trim] (assoc "email" (Object_fromEntries entries))
                   = None).
  { destruct (z_string _ _) as [e |] eqn:He; [| reflexivity].
    apply z_string_email_spec in He as [He Hre]. rewrite (Hbad e He) in Hre. discriminate. }
  split; step_route; rewrite Hbody; cbv beta iota.
  - unfold Login.LoginSchema. rewrite Hemail. reflexivity.
  - unfold Register.RegisterSchema. rewrite Hemail. reflexivity.
Qed.

Lemma invalid_email_rejected_offline_witness :
  let request := submission [("email", "ann.example.org"); ("password", "secret1");
                             ("firstName", "Ann"); ("lastName", "Lee")] in
  run (Login.action request) (scripted [])
    = ([], Normal (error_data (JStr "Invalid form data")))
  /\ run (Register.action request) (scripted [])
    = ([], Normal (error_data (JStr "Invalid form data"))).
Proof.
  intros request.
  apply (invalid_email_rejected_offline (scripted []) request _ eq_refl).
  intros e He. vm_compute in He. injection He as <-. vm_compute. reflexivity.
Defined.

(** X20: of several entries of the form under one name the login action
    takes the last, and it ignores entries under other names: it behaves as
    on the form made of the last [email] and the last [password] alone. *)
Theorem login_action_reads_last_entries
    (rt : Runtime) (cookie : option string)
    (entries : list (string * FormDataEntryValue)) (e p : string) :
  assoc "email" (List.rev entries) = Some (FString e) ->
  assoc "password" (List.rev entries) = Some (FString p) ->
  run (Login.action {| Cookie := cookie; body := Form entries |}) rt
    = run (Login.action
             {| Cookie := cookie;
                body := Form [("email", FString e); ("password", FString p)] |}) rt.
Proof.
  intros He Hp.
  assert (Hschema : Login.LoginSchema (Object_fromEntries entries)
                    = Login.LoginSchema
                        (Object_fromEntries [("email", FString e); ("password", FString p)])).
  { unfold Login.LoginSchema. rewrite !fromEntries_last, He, Hp. reflexivity. }
  step_route. cbn [body]. cbv beta iota. rewrite Hschema. reflexivity.
Qed.

Lemma login_action_reads_last_entries_witness :
  run (Login.action
         (submission [("password", "first-try"); ("email", "ann@example.org");
                      ("remember", "on"); ("password", "secret1")]))
      (scripted [Body (JObj [("message", JStr "ok")])])
    = ([POST_users_login {| email := "ann@example.org"; password := "secret1" |}],
       Normal no_value).
Proof.
  eapply eq_trans.
  - exact (login_action_reads_last_entries
             (scripted [Body (JObj [("message", JStr "ok")])]) None
             [("password", FString "first-try"); ("email", FString "ann@example.org");
              ("remember", FString "on"); ("password", FString "secret1")]
             "ann@example.org" "secret1" eq_refl eq_refl).
  - vm_compute. reflexivity.
Defined.

(** ** Access to the users collection *)

Lemma prefix_spec (n h : string) : String.prefix n h = true <-> exists b, h = n ++ b.
Proof.
  revert h. induction n as [| c n IH]; intros h.
  - destruct h; simpl; (split; [intros _; eexists; reflexivity | reflexivity]).
  - destruct h as [| d h]; simpl.
    + split; [discriminate | intros [b Hb]; discriminate].
    + destruct (ascii_dec c d) as [-> | Hne].
      * rewrite IH. split; intros [b Hb]; exists b; [rewrite Hb; reflexivity |].
        injection Hb as Hb. exact Hb.
      * split; [discriminate |]. intros [b Hb]. injection Hb as Hc _. congruence.
Qed.

Lemma includes_spec (n h : string) :
  Users.includes n h = true <-> exists a b, h = a ++ n ++ b.
Proof.
  induction h as [| d h IH]; cbn [Users.includes].
  - rewrite orb_false_r, prefix_spec. split.
    + intros [b Hb]. exists "", b. exact Hb.
    + intros (a & b & Hab). destruct a as [| x a]; [exists b; exact Hab | discriminate].
  - rewrite orb_true_iff, prefix_spec, IH. split.
    + intros [[b Hb] | (a & b & Hab)].
      * exists "", b. exact Hb.
      * exists (String d a), b. rewrite Hab. reflexivity.
    + intros (a & b & Hab). destruct a as [| x a].
      * left. exists b. exact Hab.
      * right. injection Hab as _ Hab. exists a, b. exact Hab.
Qed.

Lemma is_admin_role_spec (role : JSValue) : Users.is_admin_role role = true <-> role = JStr "admin".
Proof.
  destruct role; simpl; try (split; [discriminate | intros H; discriminate H]).
  destruct (String.eqb_spec s "admin") as [-> | Hne]; split; intros H;
    try reflexivity; try discriminate. injection H as H. contradiction.
Qed.

Lemma roles_include_admin_values (user r : JSValue) :
  Users.roles_include_admin user = Some r -> r = JUndefined \/ exists b, r = JBool b.
Proof.
  unfold Users.roles_include_admin.
  destruct (prop user "roles"); intros H; try discriminate; injection H as <-; eauto.
Qed.

(** X21: who is an administrator.  [delete] answers [true] exactly for a
    user whose [roles] is an array that has the string [admin] among its
    items, or is a string that has [admin] among its substrings. *)
Theorem delete_allowed_iff (user : JSValue) :
  Users.delete user = Some (JBool true)
  <-> (exists roles, prop user "roles" = JArr roles /\ In (JStr "admin") roles)
      \/ (exists a b, prop user "roles" = JStr (a ++ "admin" ++ b)).
Proof.
  unfold Users.delete, Users.roles_include_admin.
  destruct (prop user "roles") as [| | b | n | s | roles | ps]; cbv beta iota; cbn [truthy].
  - split; [discriminate | intros [(r & H & _) | (a & b & H)]; discriminate].
  - split; [discriminate | intros [(r & H & _) | (a & b & H)]; discriminate].
  - split; [discriminate | intros [(r & H & _) | (a & b' & H)]; discriminate].
  - split; [discriminate | intros [(r & H & _) | (a & b & H)]; discriminate].
  - destruct (Users.includes "admin" s) eqn:Hs; split.
    + intros _. right. apply includes_spec in Hs as (a & b & ->). exists a, b. reflexivity.
    + reflexivity.
    + discriminate.
    + intros [(r & H & _) | (a & b & H)]; [discriminate |].
      injection H as ->.
      assert (Users.includes "admin" (a ++ "admin" ++ b) = true)
        by (apply includes_spec; exists a, b; reflexivity).
      discriminate (eq_trans (eq_sym Hs) H).
  - destruct (existsb Users.is_admin_role roles) eqn:Hr; split.
    + intros _. left. exists roles. split; [reflexivity |].
      apply existsb_exists in Hr as (x & Hin & Hx). apply is_admin_role_spec in Hx. subst x.
      exact Hin.
    + reflexivity.
    + discriminate.
    + intros [(r & H & Hin) | (a & b & H)]; [| discriminate].
      injection H as <-.
      assert (existsb Users.is_admin_role roles = true)
        by (apply existsb_exists; exists (JStr "admin"); split; [exact Hin | reflexivity]).
      congruence.
  - split; [discriminate | intros [(r & H & _) | (a & b & H)]; discriminate].
Qed.

(** X22: [read] and [update] agree and never answer [false], and [admin]
    agrees with [delete].  [read] answers [true] exactly when [delete] does,
    and otherwise the constraint that the [id] of the record equals the [id]
    of the user of the request. *)
Theorem read_is_all_or_own_record (user r : JSValue) :
  Users.read user = Some r ->
  Users.update user = Some r
  /\ Users.admin user = Users.delete user
  /\ (r = JBool true /\ Users.delete user = Some (JBool true)
      \/ r = JObj [("id", JObj [("equals", prop user "id")])]
         /\ Users.delete user = Some (JBool false)).
Proof.
  unfold Users.read, Users.update, Users.delete, Users.admin.
  destruct (Users.roles_include_admin user) as [v |] eqn:Hv; [| discriminate].
  intros H. split; [exact H |]. split; [reflexivity |].
  apply roles_include_admin_values in Hv as [-> | [[] ->]]; simpl in *;
    injection H as <-; auto.
Qed.

Lemma read_is_all_or_own_record_witness :
  let user := JObj [("id", JNum 7); ("roles", JArr [JStr "user"])] in
  Users.update user = Some (JObj [("id", JObj [("equals", JNum 7)])])
  /\ Users.admin user = Users.delete user
  /\ (JObj [("id", JObj [("equals", JNum 7)])] = JBool true
      /\ Users.delete user = Some (JBool true)
      \/ JObj [("id", JObj [("equals", JNum 7)])]
         = JObj [("id", JObj [("equals", prop user "id")])]
         /\ Users.delete user = Some (JBool false)).
Proof.
  intros user.
  apply (read_is_all_or_own_record user (JObj [("id", JObj [("equals", JNum 7)])])).
  reflexivity.
Defined.

(** X23: a request without a user, or with a user that has no [roles], is
    no administrator: [delete] and [admin] answer [false], and [read] and
    [update] answer the constraint on the [id], which for a missing user
    compares with [undefined]. *)
Theorem access_without_roles (user : JSValue) :
  nullish (prop user "roles") = true ->
  Users.delete user = Some (JBool false)
  /\ Users.admin user = Some (JBool false)
  /\ Users.read user = Some (JObj [("id", JObj [("equals", prop user "id")])])
  /\ Users.update user = Some (JObj [("id", JObj [("equals", prop user "id")])])
  /\ (nullish user = true -> prop user "id" = JUndefined).
Proof.
  intros Hroles.
  unfold Users.delete, Users.admin, Users.read, Users.update, Users.roles_include_admin.
  destruct (prop user "roles"); try discriminate; repeat split;
    intros Hu; destruct user; try discriminate; reflexivity.
Qed.

Lemma access_without_roles_witness :
  Users.delete JNull = Some (JBool false)
  /\ Users.admin JNull = Some (JBool false)
  /\ Users.read JNull = Some (JObj [("id", JObj [("equals", prop JNull "id")])])
  /\ Users.update JNull = Some (JObj [("id", JObj [("equals", prop JNull "id")])])
  /\ (nullish JNull = true -> prop JNull "id" = JUndefined).
Proof. apply (access_without_roles JNull). reflexivity. Defined.

(** ** The home page *)

Lemma flatMap_identity_strings (names : list string) :
  flatMap_identity (map JStr names) = map JStr names.
Proof.
  unfold flatMap_identity. induction names as [| n names IH]; simpl; [reflexivity |].
  rewrite IH. reflexivity.
Qed.

Lemma join_strings (sep : string) (names : list string) :
  join sep (map JStr names) = Some (String.concat sep names).
Proof.
  induction names as [| n names IH]; [reflexivity |].
  cbn [map join ToString]. rewrite IH. destruct names; reflexivity.
Qed.

Lemma join_defined_iff (sep : string) (l : list JSValue) :
  join sep l <> None <-> forall x, In x l -> ToString x <> None.
Proof.
  induction l as [| x l IH]; cbn [join].
  - split; [intros _ y [] | discriminate].
  - assert (Hhere : match x with JUndefined | JNull => Some "" | _ => ToString x end = None
                    <-> ToString x = None)
      by (destruct x; split; intros H; try discriminate H; exact H).
    destruct (match x with JUndefined | JNull => Some "" | _ => ToString x end) as [h |].
    + destruct (join sep l) as [rest |].
      * split; [| discriminate]. intros _ y [<- | Hy].
        -- intros Hx. apply Hhere in Hx. discriminate.
        -- apply (proj1 IH); [discriminate | exact Hy].
      * split; [intros H; exfalso; apply H; reflexivity |].
        intros Hall. exfalso.
        apply (proj2 IH); [intros y Hy; apply Hall; right; exact Hy | reflexivity].
    + split; [intros H; exfalso; apply H; reflexivity |].
      intros Hall. exfalso. apply (Hall x (or_introl eq_refl)). apply Hhere. reflexivity.
Qed.

Lemma roles_line_of_user (user : JSValue) :
  truthy user = true ->
  roles_line user = match prop user "roles" with
                    | JArr roles =>
                        match join ", " (flatMap_identity roles) with
                        | Some line => Some (JStr line)
                        | None => None
                        end
                    | _ => None
                    end.
Proof. destruct user; intros Hu; try discriminate Hu; reflexivity. Qed.

(** X24: for the truthy user that the home loader returns, the line of roles
    can be computed exactly when the [roles] of the user is an array whose
    items, after one level of flattening, all have a text (any other value of
    [roles], a missing one included, is a [TypeError], and so is an item that
    cannot be converted); for an array of strings the line is those strings
    in their order, separated by a comma and a space. *)
Theorem roles_line_defined_iff (user : JSValue) :
  truthy user = true ->
  (roles_line user <> None
   <-> exists roles, prop user "roles" = JArr roles
                     /\ forall x, In x (flatMap_identity roles) -> ToString x <> None)
  /\ (forall names,
        prop user "roles" = JArr (map JStr names) ->
        roles_line user = Some (JStr (String.concat ", " names))).
Proof.
  intros Hu. rewrite (roles_line_of_user user Hu). split.
  - destruct (prop user "roles") as [| | b' | n' | s' | roles | ps'];
      try (split; [intros H; exfalso; apply H; reflexivity
                  | intros (roles' & Hroles & _); discriminate Hroles]).
    pose proof (join_defined_iff ", " (flatMap_identity roles)) as Hjoin.
    destruct (join ", " (flatMap_identity roles)) as [line |]; split.
    + intros _. exists roles. split; [reflexivity |]. apply Hjoin. discriminate.
    + discriminate.
    + intros H. exfalso. apply H. reflexivity.
    + intros (roles' & Hroles & Hall). injection Hroles as <-.
      exfalso. apply (proj2 Hjoin Hall). reflexivity.
  - intros names ->. rewrite flatMap_identity_strings, join_strings. reflexivity.
Qed.

Lemma roles_line_defined_iff_witness :
  roles_line (JObj [("email", JStr "ann@example.org"); ("roles", JArr [JStr "admin"; JStr "user"])])
    = Some (JStr "admin, user").
Proof.
  exact (proj2 (roles_line_defined_iff
                  (JObj [("email", JStr "ann@example.org");
                         ("roles", JArr [JStr "admin"; JStr "user"])]) eq_refl)
               ["admin"; "user"] eq_refl).
Defined.

(** X25: the list of users can be computed exactly when the [docs] of the
    listing is missing or [null] (the list is then empty) or is an array
    without [null] items; it then has one item for each document, in order,
    keyed by the [id] and showing the [email] of the document. *)
Theorem user_items_defined_iff (allUsers : JSValue) :
  (user_items allUsers <> None
   <-> nullish (prop allUsers "docs") = true
       \/ exists docs, prop allUsers "docs" = JArr docs
                       /\ forall u, In u docs -> nullish u = false)
  /\ (nullish (prop allUsers "docs") = true -> user_items allUsers = Some [])
  /\ (forall docs items,
        prop allUsers "docs" = JArr docs -> user_items allUsers = Some items ->
        items = map (fun u => (prop u "id", prop u "email")) docs).
Proof.
  unfold user_items. destruct (prop allUsers "docs") as [| | b | n | s | docs | ps]; simpl.
  1, 2: repeat split; try discriminate; auto; intros; discriminate.
  1, 2, 3, 5:
    (split; [split; [intros H; exfalso; apply H; reflexivity
                    | intros [H | (d & H & _)]; discriminate]
            | split; [discriminate | intros d items H; discriminate]]).
  split; [| split; [discriminate |]].
  - destruct (forallb (fun u => negb (nullish u)) docs) eqn:Hall; split.
    + intros _. right. exists docs. split; [reflexivity |].
      intros u Hin. rewrite forallb_forall in Hall. apply negb_true_iff, Hall, Hin.
    + discriminate.
    + intros H. exfalso. apply H. reflexivity.
    + intros [H | (d & Hd & Hall')]; [discriminate |]. injection Hd as <-.
      assert (forallb (fun u => negb (nullish u)) docs = true)
        by (apply forallb_forall; intros u Hin; rewrite (Hall' u Hin); reflexivity).
      congruence.
  - intros d items Hd. injection Hd as <-.
    destruct (forallb _ docs); [| discriminate]. intros H. injection H as <-. reflexivity.
Qed.

(** ** The shape of an accepted address *)

Lemma nullable_lang r : Regex.nullable r = true -> lang r "".
Proof.
  induction r; simpl; intros H; try discriminate.
  - constructor.
  - apply andb_prop in H as [H1 H2]. exact (lang_seq _ _ "" "" (IHr1 H1) (IHr2 H2)).
  - apply orb_true_iff in H as [H | H]; [apply lang_alt_l | apply lang_alt_r]; auto.
  - constructor.
Qed.

Lemma deriv_lang c r : forall s, lang (Regex.deriv c r) s -> lang r (String c s).
Proof.
  induction r; simpl; intros s H.
  - inversion H.
  - inversion H.
  - destruct (p c) eqn:Hp; inversion H; subst. constructor. exact Hp.
  - destruct (Regex.nullable r1) eqn:Hn.
    + inversion H as [| | | ? ? ? Hl | ? ? ? Hr | |]; subst.
      * inversion Hl as [| | ? ? s1 s2 H1 H2 | | | |]; subst.
        exact (lang_seq _ _ (String c s1) s2 (IHr1 _ H1) H2).
      * exact (lang_seq _ _ "" (String c s) (nullable_lang _ Hn) (IHr2 _ Hr)).
    + inversion H as [| | ? ? s1 s2 H1 H2 | | | |]; subst.
      exact (lang_seq _ _ (String c s1) s2 (IHr1 _ H1) H2).
  - inversion H; subst; [apply lang_alt_l | apply lang_alt_r]; auto.
  - inversion H as [| | ? ? s1 s2 H1 H2 | | | |]; subst.
    exact (lang_star_app _ (String c s1) s2 (IHr _ H1) H2).
Qed.

Lemma matches_lang s : forall r, Regex.matches r s = true -> lang r s.
Proof.
  induction s as [| c s IH]; intros r H; simpl in H.
  - apply nullable_lang, H.
  - apply deriv_lang, IH, H.
Qed.

Lemma lang_seq_inv a b s :
  lang (Regex.Seq a b) s -> exists s1 s2, s = s1 ++ s2 /\ lang a s1 /\ lang b s2.
Proof. intros H. inversion H; subst. eauto. Qed.

Lemma lang_class_inv p s : lang (Regex.Class p) s -> exists c, s = String c "" /\ p c = true.
Proof. intros H. inversion H; subst. eauto. Qed.

Lemma lang_star_class p s : lang (Regex.Star (Regex.Class p)) s -> Str.forallb p s = true.
Proof.
  intros H. remember (Regex.Star (Regex.Class p)) as r eqn:Hr.
  induction H; try discriminate Hr; [reflexivity |].
  injection Hr as ->. apply lang_class_inv in H as (c & -> & Hc).
  simpl. rewrite Hc. apply IHlang2. reflexivity.
Qed.

Lemma one_of_single x c : Zod.one_of (String x "") c = true -> c = x.
Proof.
  unfold Zod.one_of. simpl. destruct (Ascii.eqb_spec x c) as [-> | Hne]; [reflexivity |].
  discriminate.
Qed.

Lemma local_char_not_at c : Zod.local_char c = true -> not_at c = true.
Proof.
  destruct c as [[] [] [] [] [] [] [] []]; vm_compute; intros H;
    first [reflexivity | discriminate H].
Qed.

Lemma domain_char_not_at c : domain_char c = true -> not_at c = true.
Proof.
  destruct c as [[] [] [] [] [] [] [] []]; vm_compute; intros H;
    first [reflexivity | discriminate H].
Qed.

Lemma local_last_local_char c : Zod.local_last c = true -> Zod.local_char c = true.
Proof.
  destruct c as [[] [] [] [] [] [] [] []]; vm_compute; intros H;
    first [reflexivity | discriminate H].
Qed.

Lemma label_first_domain_char c : Zod.label_first c = true -> domain_char c = true.
Proof.
  destruct c as [[] [] [] [] [] [] [] []]; vm_compute; intros H;
    first [reflexivity | discriminate H].
Qed.

Lemma label_char_domain_char c : Zod.label_char c = true -> domain_char c = true.
Proof. unfold domain_char. intros ->. reflexivity. Qed.

Lemma letter_domain_char c : Zod.letter c = true -> domain_char c = true.
Proof.
  destruct c as [[] [] [] [] [] [] [] []]; vm_compute; intros H;
    first [reflexivity | discriminate H].
Qed.

(** A label of the domain: a first code unit, more code units, a dot. *)
Lemma label_inv s :
  lang (Regex.Seq (Regex.Class Zod.label_first)
          (Regex.Seq (Regex.Star (Regex.Class Zod.label_char))
                     (Regex.Class (Zod.one_of ".")))) s ->
  exists pre, s = pre ++ "." /\ pre <> "" /\ Str.forallb domain_char pre = true.
Proof.
  intros H. apply lang_seq_inv in H as (s1 & s2 & -> & H1 & H2).
  apply lang_class_inv in H1 as (f & -> & Hf).
  apply lang_seq_inv in H2 as (mid & s3 & -> & Hmid & Hdot).
  apply lang_class_inv in Hdot as (d & -> & Hd). apply one_of_single in Hd. subst d.
  apply lang_star_class in Hmid.
  exists (String f mid). split; [reflexivity |]. split; [discriminate |].
  simpl. rewrite (label_first_domain_char f Hf).
  apply (forallb_weaken Zod.label_char); [apply label_char_domain_char | exact Hmid].
Qed.

Lemma labels_inv s :
  lang (Regex.Star (Regex.Seq (Regex.Class Zod.label_first)
                      (Regex.Seq (Regex.Star (Regex.Class Zod.label_char))
                                 (Regex.Class (Zod.one_of "."))))) s ->
  Str.forallb domain_char s = true /\ (s = "" \/ exists v, s = v ++ ".").
Proof.
  intros H.
  remember (Regex.Star (Regex.Seq (Regex.Class Zod.label_first)
                          (Regex.Seq (Regex.Star (Regex.Class Zod.label_char))
                                     (Regex.Class (Zod.one_of "."))))) as r eqn:Hr.
  induction H; try discriminate Hr; [split; [reflexivity | left; reflexivity] |].
  injection Hr as ->. apply label_inv in H as (pre & -> & _ & Hpre).
  destruct (IHlang2 eq_refl) as [Ht Hend]. split.
  - rewrite !forallb_app, Hpre, Ht. reflexivity.
  - right. destruct Hend as [-> | [v ->]].
    + exists pre. rewrite app_assoc_string. reflexivity.
    + exists ((pre ++ ".") ++ v). rewrite !app_assoc_string. reflexivity.
Qed.

(** X26: every address that the [email] check accepts, hence every address
    that the login or the register action sends to the backend, has exactly
    one at sign, with a local part before it that is not empty and a domain
    after it that is made of letters, digits, hyphens and dots and ends in a
    dot followed by two letters or more. *)
Theorem accepted_address_shape (s : string) :
  Zod.emailRegex s = true ->
  exists loc host tld,
    s = loc ++ "@" ++ host ++ "." ++ tld
    /\ loc <> "" /\ host <> ""
    /\ Str.forallb not_at loc = true
    /\ Str.forallb not_at (host ++ "." ++ tld) = true
    /\ Str.forallb domain_char host = true
    /\ Str.forallb Zod.letter tld = true
    /\ (2 <= String.length tld)%nat.
Proof.
  unfold Zod.emailRegex. intros H. apply andb_prop in H as [_ H].
  apply matches_lang in H. unfold Zod.email_body in H.
  apply lang_seq_inv in H as (l1 & r1 & -> & Hl1 & H).
  apply lang_seq_inv in H as (l2 & r2 & -> & Hl2 & H).
  apply lang_seq_inv in H as (at_ & r3 & -> & Hat & H).
  apply lang_seq_inv in H as (dom & tl & -> & Hdom & Htl).
  apply lang_star_class in Hl1.
  apply lang_class_inv in Hl2 as (x & -> & Hx).
  apply lang_class_inv in Hat as (a & -> & Ha). apply one_of_single in Ha. subst a.
  unfold Regex.Plus in Hdom.
  apply lang_seq_inv in Hdom as (lab & more & -> & Hlab & Hmore).
  apply label_inv in Hlab as (pre & -> & Hne & Hpre).
  apply labels_inv in Hmore as [Hmore Hend].
  apply lang_seq_inv in Htl as (t1 & t23 & -> & Ht1 & Htl).
  apply lang_seq_inv in Htl as (t2 & t3 & -> & Ht2 & Ht3).
  apply lang_class_inv in Ht1 as (c1 & -> & Hc1).
  apply lang_class_inv in Ht2 as (c2 & -> & Hc2).
  apply lang_star_class in Ht3.
  assert (Hhost : exists host, (pre ++ ".") ++ more = host ++ "." /\ host <> ""
                               /\ Str.forallb domain_char host = true).
  { destruct Hend as [-> | [v ->]].
    - exists pre. split; [rewrite app_assoc_string; reflexivity |]. split; assumption.
    - exists ((pre ++ ".") ++ v). split; [rewrite !app_assoc_string; reflexivity |].
      split; [destruct pre; [contradiction | discriminate] |].
      rewrite !forallb_app in *. apply andb_prop in Hmore as [Hv _].
      rewrite Hpre, Hv. reflexivity. }
  destruct Hhost as (host & Hhost & Hhne & Hhchars).
  assert (Htld : Str.forallb Zod.letter (String c1 (String c2 t3)) = true)
    by (simpl; rewrite Hc1, Hc2; exact Ht3).
  exists (l1 ++ String x ""), host, (String c1 (String c2 t3)).
  split; [| split; [| split; [| split; [| split; [| split; [| split]]]]]].
  - rewrite Hhost, !app_assoc_string. reflexivity.
  - destruct l1; discriminate.
  - exact Hhne.
  - rewrite forallb_app. simpl.
    rewrite (forallb_weaken Zod.local_char not_at l1 local_char_not_at Hl1).
    rewrite (local_char_not_at x (local_last_local_char x Hx)). reflexivity.
  - rewrite !forallb_app.
    rewrite (forallb_weaken domain_char not_at host domain_char_not_at Hhchars).
    rewrite (forallb_weaken Zod.letter not_at _
               (fun c Hc => domain_char_not_at c (letter_domain_char c Hc)) Htld).
    reflexivity.
  - exact Hhchars.
  - exact Htld.
  - simpl. lia.
Qed.

Lemma accepted_address_shape_witness :
  exists loc host tld,
    "ann.lee@mail.example.org" = loc ++ "@" ++ host ++ "." ++ tld
    /\ loc <> "" /\ host <> ""
    /\ Str.forallb not_at loc = true
    /\ Str.forallb not_at (host ++ "." ++ tld) = true
    /\ Str.forallb domain_char host = true
    /\ Str.forallb Zod.letter tld = true
    /\ (2 <= String.length tld)%nat.
Proof. apply (accepted_address_shape "ann.lee@mail.example.org"). vm_compute. reflexivity. Defined.

(** ** Resolving the current user *)

(** X27: [checkUser] makes one call, the identity request with the [Cookie]
    header of the request.  It throws exactly when that call fails in
    transport, with the error of the failure; for every body that the
    backend returns, a body without a user included, it returns the [user]
    property of the body, [undefined] when there is none. *)
Theorem checkUser_throws_only_on_transport_failure
    (rt : Runtime) (request : Request) :
  fst (run (checkUser request) rt) = [GET_users_me (cookie_header request)]
  /\ (forall e, snd (run (checkUser request) rt) = Abrupt e
                <-> exists m, transport_failure
                                (backend rt [] (GET_users_me (cookie_header request))) m
                              /\ e = ErrorObject m)
  /\ (forall json, backend rt [] (GET_users_me (cookie_header request)) = Body json ->
                   snd (run (checkUser request) rt) = Normal (prop json "user")).
Proof.
  cbv [run checkUser bind fetch_json ret].
  destruct (backend rt [] _) as [json | m | m]; cbv beta iota; simpl; repeat split.
  - discriminate.
  - intros (m & [H | H] & _); discriminate.
  - intros j H. injection H as <-. reflexivity.
  - intros H. injection H as <-. exists m. split; [left |]; reflexivity.
  - intros (m' & [H | H] & ->); [injection H as <-; reflexivity | discriminate].
  - discriminate.
  - intros H. injection H as <-. exists m. split; [right |]; reflexivity.
  - intros (m' & [H | H] & ->); [discriminate | injection H as <-; reflexivity].
  - discriminate.
Qed.

(** ** The calendar fields of an expiry *)

Lemma DayWithinYear_range (t : Z) :
  (0 <= JSDate.DayWithinYear t < 365 + JSDate.InLeapYear t)%Z.
Proof.
  unfold JSDate.DayWithinYear, JSDate.InLeapYear, JSDate.YearFromTime.
  pose proof (year_of_day_brackets (JSDate.Day t)) as [Hlo Hhi].
  rewrite DaysInYear_DayFromYear in Hhi.
  assert (Hlen : JSDate.DaysInYear (JSDate.year_of_day (JSDate.Day t)) = 365%Z
                 \/ JSDate.DaysInYear (JSDate.year_of_day (JSDate.Day t)) = 366%Z).
  { unfold JSDate.DaysInYear.
    destruct (negb _); [left; reflexivity |]. destruct (negb _); [right; reflexivity |].
    destruct (negb _); [left | right]; reflexivity. }
  destruct Hlen as [Hlen | Hlen]; rewrite Hlen in *; simpl; lia.
Qed.

(** X28: in the expiry text of the cookie the day of the week is one of
    seven, the month one of twelve, the day of the month between 1 and 31,
    the hour below 24 and the minute and the second below 60, whatever the
    instant. *)
Theorem calendar_fields_in_range (t : Z) :
  (0 <= JSDate.WeekDay t <= 6)%Z
  /\ (0 <= JSDate.MonthFromTime t <= 11)%Z
  /\ (1 <= JSDate.DateFromTime t <= 31)%Z
  /\ (0 <= JSDate.HourFromTime t <= 23)%Z
  /\ (0 <= JSDate.MinFromTime t <= 59)%Z
  /\ (0 <= JSDate.SecFromTime t <= 59)%Z.
Proof.
  pose proof (DayWithinYear_range t) as Hd.
  assert (Hleap : (JSDate.InLeapYear t = 0 \/ JSDate.InLeapYear t = 1)%Z)
    by (unfold JSDate.InLeapYear; destruct (_ =? _)%Z; auto).
  split; [unfold JSDate.WeekDay; Z.to_euclidean_division_equations; lia |].
  assert (Hmonth : (0 <= JSDate.MonthFromTime t <= 11)%Z
                   /\ (1 <= JSDate.DateFromTime t <= 31)%Z).
  { unfold JSDate.DateFromTime, JSDate.MonthFromTime.
    repeat match goal with
           | |- context [(?a <? ?b)%Z] => destruct (Z.ltb_spec a b)
           end; lia. }
  split; [apply Hmonth |]. split; [apply Hmonth |].
  unfold JSDate.HourFromTime, JSDate.MinFromTime, JSDate.SecFromTime.
  repeat split; Z.to_euclidean_division_equations; lia.
Qed.
